(** * S3 cost report: the aggregation and ranking core of
      [lambda_s3_cost_report.py]

    A shallow embedding of the pure part of [lambda_handler]: the row
    normaliser (lines 216-224), the aggregation loop (226-246), the
    top-N selection (249-252) and the report renderer (270-304), with
    the helpers [float_or_zero], [int_or_zero] and [bytes_to_gb].

    Python values are modelled as the code has them: a CSV field is a
    [string], an [int] is a [Z], a [float] is an IEEE 754 binary64 value
    ([spec_float] at precision 53), the [prefixes] dict is an
    insertion-ordered association list, and an exception is a [Raise]. *)

From Stdlib Require Import ZArith List Bool Ascii String Lia Permutation.
From Stdlib Require Import Floats.SpecFloat.
From Stdlib Require Import Numbers.DecimalString.
Import ListNotations.

Open Scope Z_scope.

(** ** Exceptions *)

Inductive exn := ValueError | OverflowError.

Inductive result (A : Type) :=
| Ok (a : A)
| Raise (e : exn).
Arguments Ok {A} a.
Arguments Raise {A} e.

Definition bind {A B} (r : result A) (k : A -> result B) : result B :=
  match r with
  | Ok a => k a
  | Raise e => Raise e
  end.

Notation "x <- r ;; k" := (bind r (fun x => k))
  (at level 61, r at next level, right associativity).

(** ** Python floats: IEEE 754 binary64 *)

Definition float : Type := spec_float.

Module PyFloat.

Definition prec : Z := 53.
Definition emax : Z := 1024.

Definition zero : float := S754_zero false.

Definition add : float -> float -> float := SFadd prec emax.
Definition sub : float -> float -> float := SFsub prec emax.
Definition div : float -> float -> float := SFdiv prec emax.
Definition abs : float -> float := SFabs.
Definition ltb : float -> float -> bool := SFltb.
Definition leb : float -> float -> bool := SFleb.
Definition eqb : float -> float -> bool := SFeqb.

(** [x >= y] on floats is [y <= x]; false as soon as one side is nan. *)
Definition geb (x y : float) : bool := leb y x.

Definition is_nan (f : float) : bool :=
  match f with S754_nan => true | _ => false end.

Definition is_finite (f : float) : bool :=
  match f with S754_zero _ | S754_finite _ _ _ => true | _ => false end.

(** The integer [n], rounded to the nearest binary64 (ties to even). *)
Definition round_Z (n : Z) : float := binary_normalize prec emax n 0 false.

(** [float(n)] for an [int]: an [OverflowError] when [n] rounds out of
    range ("int too large to convert to float"). *)
Definition of_int (n : Z) : result float :=
  match round_Z n with
  | S754_infinity _ => Raise OverflowError
  | f => Ok f
  end.

(** [int(f)]: truncation toward zero; [int(inf)] raises [OverflowError]
    and [int(nan)] raises [ValueError]. *)
Definition trunc_mag (m : positive) (e : Z) : Z :=
  if 0 <=? e then Z.shiftl (Zpos m) e else Z.shiftr (Zpos m) (- e).

Definition to_int (f : float) : result Z :=
  match f with
  | S754_zero _ => Ok 0
  | S754_finite s m e => Ok (cond_Zopp s (trunc_mag m e))
  | S754_infinity _ => Raise OverflowError
  | S754_nan => Raise ValueError
  end.

(** The decimal [(-1)^neg * m * 10^e10], correctly rounded (nearest,
    ties to even), as [float(str)] rounds a decimal literal.  For a
    negative exponent the quotient is taken with 64 spare bits and a
    sticky bit for the remainder, so the final rounding sees on which
    side of every rounding boundary the exact value lies. *)
Definition of_decimal (neg : bool) (m : Z) (e10 : Z) : float :=
  if m =? 0 then S754_zero neg
  else if 0 <=? e10 then
    binary_normalize prec emax (cond_Zopp neg (m * 10 ^ e10)) 0 false
  else
    let d := 10 ^ (- e10) in
    let k := Z.max 0 (64 + Z.log2 d + 1 - Z.log2 m) in
    let q := Z.shiftl m k / d in
    let r := Z.shiftl m k mod d in
    let sticky := if r =? 0 then 0 else 1 in
    binary_normalize prec emax (cond_Zopp neg (2 * q + sticky)) (- k - 1) false.

End PyFloat.

(** ** [float(str)]: the text of a float

    The grammar of the builtin, on ASCII text: surrounding whitespace is
    stripped; an optional sign; then [inf], [infinity] or [nan] in any
    letter case, or a decimal number [digits [. [digits]]] or
    [. digits] with an optional exponent [e [sign] digits]; one
    underscore may stand between two digits.  Anything else is a
    [ValueError].  A field of a CSV row is text, so this is the only
    conversion [float_or_zero] and [int_or_zero] ever perform.

    The model is of ASCII text.  A byte above 127 belongs to the UTF-8
    form of a non-ASCII character; the builtin reads non-ASCII decimal
    digits and spaces as well, which this parser rejects.  Every
    property that depends on the verdict of [parse] is therefore stated
    for fields that satisfy [is_ascii]. *)

Module FloatText.

Definition code (c : ascii) : nat := nat_of_ascii c.

(** Tab, line feed, vertical tab, form feed, carriage return, space. *)
Definition is_space (c : ascii) : bool :=
  let n := code c in
  ((9 <=? n) && (n <=? 13) || (n =? 32))%nat.

(** Text of ASCII characters only. *)
Definition is_ascii (s : string) : bool :=
  forallb (fun c => (code c <? 128)%nat) (list_ascii_of_string s).

Definition is_digit (c : ascii) : bool :=
  let n := code c in ((48 <=? n) && (n <=? 57))%nat.

Definition digit_val (c : ascii) : Z := Z.of_nat (code c - 48).

Definition lower (c : ascii) : ascii :=
  let n := code c in
  if ((65 <=? n) && (n <=? 90))%nat then ascii_of_nat (n + 32) else c.

Fixpoint lstrip (l : list ascii) : list ascii :=
  match l with
  | c :: l' => if is_space c then lstrip l' else l
  | [] => []
  end.

Definition strip (l : list ascii) : list ascii :=
  rev (lstrip (rev (lstrip l))).

(** The digits read so far: their value and how many there are. *)
Record digits := { dval : Z; dlen : Z }.

Definition push (d : digits) (c : ascii) : digits :=
  {| dval := 10 * dval d + digit_val c; dlen := dlen d + 1 |}.

(** After a first digit: [("_"? digit)*].  An underscore that no digit
    follows is left in the rest, where nothing accepts it. *)
Fixpoint more_digits (l : list ascii) (d : digits) : digits * list ascii :=
  match l with
  | c :: l' =>
      if is_digit c then more_digits l' (push d c)
      else if Ascii.eqb c "_" then
        match l' with
        | c' :: l'' =>
            if is_digit c' then more_digits l'' (push d c') else (d, l)
        | [] => (d, l)
        end
      else (d, l)
  | [] => (d, l)
  end.

(** [digitpart]: at least one digit. *)
Definition digitpart (l : list ascii) (d : digits)
  : option (digits * list ascii) :=
  match l with
  | c :: l' => if is_digit c then Some (more_digits l' (push d c)) else None
  | [] => None
  end.

Definition opt_sign (l : list ascii) : bool * list ascii :=
  match l with
  | c :: l' =>
      if Ascii.eqb c "-" then (true, l')
      else if Ascii.eqb c "+" then (false, l')
      else (false, l)
  | [] => (false, l)
  end.

(** The exponent, if there is one, and then the end of the text. *)
Definition exponent (l : list ascii) : option Z :=
  match l with
  | [] => Some 0
  | c :: l' =>
      if Ascii.eqb (lower c) "e" then
        let (neg, l1) := opt_sign l' in
        match digitpart l1 {| dval := 0; dlen := 0 |} with
        | Some (d, []) => Some (cond_Zopp neg (dval d))
        | _ => None
        end
      else None
  end.

(** [number [exponent]]: the mantissa's digits and the power of ten. *)
Definition number (l : list ascii) : option (Z * Z) :=
  let d0 := {| dval := 0; dlen := 0 |} in
  let finish (m : digits) (nfrac : Z) (rest : list ascii) :=
    match exponent rest with
    | Some e => Some (dval m, e - nfrac)
    | None => None
    end in
  match digitpart l d0 with
  | Some (di, rest) =>
      match rest with
      | c :: rest' =>
          if Ascii.eqb c "." then
            match digitpart rest' di with
            | Some (df, rest'') => finish df (dlen df - dlen di) rest''
            | None => finish di 0 rest'
            end
          else finish di 0 rest
      | [] => finish di 0 rest
      end
  | None =>
      match l with
      | c :: rest' =>
          if Ascii.eqb c "." then
            match digitpart rest' d0 with
            | Some (df, rest'') => finish df (dlen df) rest''
            | None => None
            end
          else None
      | [] => None
      end
  end.

Definition parse (s : string) : result float :=
  let (neg, l) := opt_sign (strip (list_ascii_of_string s)) in
  let w := string_of_list_ascii (map lower l) in
  if (String.eqb w "inf" || String.eqb w "infinity")%bool
  then Ok (S754_infinity neg)
  else if String.eqb w "nan" then Ok S754_nan
  else
    match number l with
    | Some (m, e10) => Ok (PyFloat.of_decimal neg m e10)
    | None => Raise ValueError
    end.

(** What [int(str)] would accept: a sign and digits.  The handler does
    not use it; it reads counts and sizes through [float]. *)
Definition is_int_text (s : string) : bool :=
  let (_, l) := opt_sign (strip (list_ascii_of_string s)) in
  match digitpart l {| dval := 0; dlen := 0 |} with
  | Some (_, []) => true
  | _ => false
  end.

End FloatText.

(** ** The helpers of the handler *)

(** [float_or_zero] (lines 114-118). *)
Definition float_or_zero (val : string) : float :=
  match FloatText.parse val with
  | Ok f => f
  | Raise _ => PyFloat.zero
  end.

(** [int_or_zero] (lines 121-125): [int(float(val))], and [0] when
    either conversion raises. *)
Definition int_or_zero (val : string) : Z :=
  match f <- FloatText.parse val ;; PyFloat.to_int f with
  | Ok n => n
  | Raise _ => 0
  end.

(** [bytes_to_gb] (lines 128-130): [float(num_bytes) / (1024 ** 3)];
    the divisor is the [int] 2^30, converted exactly. *)
Definition bytes_to_gb (num_bytes : Z) : result float :=
  f <- PyFloat.of_int num_bytes ;;
  Ok (PyFloat.div f (PyFloat.round_Z (1024 ^ 3))).

(** ** [f"{x:.6f}"]: fixed-point text of a float *)

Module Format.

Definition digit_char (d : Z) : ascii := ascii_of_nat (48 + Z.to_nat d).

(** The [w] low decimal digits of [n], most significant first. *)
Fixpoint fixed_digits (w : nat) (n : Z) : string :=
  match w with
  | O => EmptyString
  | S w' => fixed_digits w' (n / 10) ++ String (digit_char (n mod 10)) EmptyString
  end.

(** [str(n)] for a non-negative [int]. *)
Definition nat_text (n : Z) : string :=
  NilZero.string_of_uint (N.to_uint (Z.to_N n)).

(** [str(n)] for an [int]. *)
Definition int_text (n : Z) : string :=
  if n <? 0 then String "-" (nat_text (- n)) else nat_text n.

(** [m * 2^e * 10^digits], rounded to the nearest integer, ties to
    even: the exact binary value is what the conversion rounds. *)
Definition scaled (digits : Z) (m : positive) (e : Z) : Z :=
  let num := Zpos m * 10 ^ digits in
  if 0 <=? e then Z.shiftl num e
  else
    let den := 2 ^ (- e) in
    let q := num / den in
    let r := num mod den in
    match 2 * r ?= den with
    | Lt => q
    | Gt => q + 1
    | Eq => if Z.even q then q else q + 1
    end.

Definition sign_text (s : bool) : string := if s then "-" else "".

Definition fixed_text (digits : nat) (s : bool) (n : Z) : string :=
  let unit := 10 ^ Z.of_nat digits in
  sign_text s ++ nat_text (n / unit) ++ "." ++ fixed_digits digits (n mod unit).

Definition fmt (digits : nat) (x : float) : string :=
  match x with
  | S754_nan => "nan"
  | S754_infinity s => sign_text s ++ "inf"
  | S754_zero s => fixed_text digits s 0
  | S754_finite s m e => fixed_text digits s (scaled (Z.of_nat digits) m e)
  end.

(** [f"{x:.6f}"] *)
Definition fmt6 (x : float) : string := fmt 6 x.

End Format.

(** ** The data of the handler *)

(** One entry of an accumulator's ["breakdown"] list (lines 240-246). *)
Module Tier.
Record t := {
  storage_class : string;
  intelligent_tiering_access_tier : string;
  object_count : Z;
  total_size_bytes : Z;
  estimated_cost_usd : float
}.

(** The tier identity of an entry: storage class and access tier. *)
Definition key (b : t) : string * string :=
  (storage_class b, intelligent_tiering_access_tier b).
End Tier.

(** The value stored under a [(table, prefix)] key (lines 228-235). *)
Module Acc.
Record t := {
  table : string;
  prefix : string;
  total_size_bytes : Z;
  total_objects : Z;
  total_cost_usd : float;
  breakdown : list Tier.t
}.
End Acc.

(** What lines 219-224 read off one row: the typed measurement. *)
Record Measurement := {
  m_prefix : string;
  m_storage_class : string;
  m_itt : string;
  m_object_count : Z;
  m_total_size : Z;
  m_estimated_cost : float
}.

Definition Key : Type := string * string.

Definition key_eqb (k k' : Key) : bool :=
  (String.eqb (fst k) (fst k') && String.eqb (snd k) (snd k'))%bool.

(** The [prefixes] dict: keys in insertion order, each key once. *)
Definition Prefixes : Type := list (Key * Acc.t).

Fixpoint contains (key : Key) (prefixes : Prefixes) : bool :=
  match prefixes with
  | [] => false
  | (k, _) :: rest => if key_eqb key k then true else contains key rest
  end.

Fixpoint get (key : Key) (prefixes : Prefixes) : option Acc.t :=
  match prefixes with
  | [] => None
  | (k, data) :: rest => if key_eqb key k then Some data else get key rest
  end.

(** In-place update of the value under [key]; the key keeps its place. *)
Fixpoint update (key : Key) (f : Acc.t -> Acc.t) (prefixes : Prefixes)
  : Prefixes :=
  match prefixes with
  | [] => []
  | (k, data) :: rest =>
      if key_eqb key k then (k, f data) :: rest
      else (k, data) :: update key f rest
  end.

(** ** Row normalisation (lines 217-224) *)

(** [x or default] on strings: the empty string is falsy. *)
Definition str_or (x default : string) : string :=
  if String.eqb x "" then default else x.

Definition field (row : list string) (i : nat) : string :=
  nth i row ""%string.

Definition normalize_row (row : list string) : option Measurement :=
  if (List.length row <? 6)%nat then None
  else
    Some {| m_prefix := str_or (field row 0) "(empty)";
            m_storage_class := str_or (field row 1) "UNKNOWN";
            m_itt := str_or (field row 2) "";
            m_object_count := int_or_zero (field row 3);
            m_total_size := int_or_zero (field row 4);
            m_estimated_cost := float_or_zero (field row 5) |}.

(** ** Aggregation (lines 226-246) *)

Definition new_acc (table prefix : string) : Acc.t :=
  {| Acc.table := table;
     Acc.prefix := prefix;
     Acc.total_size_bytes := 0;
     Acc.total_objects := 0;
     Acc.total_cost_usd := PyFloat.zero;
     Acc.breakdown := [] |}.

Definition tier_of (m : Measurement) : Tier.t :=
  {| Tier.storage_class := m_storage_class m;
     Tier.intelligent_tiering_access_tier := m_itt m;
     Tier.object_count := m_object_count m;
     Tier.total_size_bytes := m_total_size m;
     Tier.estimated_cost_usd := m_estimated_cost m |}.

(** Lines 237-246: the three [+=] and the [append]. *)
Definition accumulate (m : Measurement) (data : Acc.t) : Acc.t :=
  {| Acc.table := Acc.table data;
     Acc.prefix := Acc.prefix data;
     Acc.total_size_bytes := Acc.total_size_bytes data + m_total_size m;
     Acc.total_objects := Acc.total_objects data + m_object_count m;
     Acc.total_cost_usd :=
       PyFloat.add (Acc.total_cost_usd data) (m_estimated_cost m);
     Acc.breakdown := Acc.breakdown data ++ [tier_of m] |}.

Definition add_measurement (table : string) (m : Measurement)
  (prefixes : Prefixes) : Prefixes :=
  let key := (table, m_prefix m) in
  let prefixes :=
    if contains key prefixes then prefixes
    else prefixes ++ [(key, new_acc table (m_prefix m))] in
  update key (accumulate m) prefixes.

(** One turn of the [for row in reader] loop. *)
Definition process_row (table : string) (prefixes : Prefixes)
  (row : list string) : Prefixes :=
  match normalize_row row with
  | None => prefixes
  | Some m => add_measurement table m prefixes
  end.

Definition process_table (prefixes : Prefixes)
  (result : string * list (list string)) : Prefixes :=
  fold_left (process_row (fst result)) (snd result) prefixes.

(** Step 2 over the tables whose query succeeded: for each one its name
    and the rows of its CSV after the header. *)
Definition aggregate (results : list (string * list (list string)))
  : Prefixes :=
  fold_left process_table results [].

(** ** Ranking (lines 249-252) *)

(** [sorted(l, key=key, reverse=True)]: descending and stable.  Like
    [list.sort] it compares keys with [<] only: each element, in input
    order, goes in front of the first one whose key is smaller, so equal
    keys keep their input order.  A nan key compares false with
    everything; the result is then still a reordering of the input, but
    [<] no longer orders it and the order can differ from the one
    [list.sort] leaves.  Every property about the order assumes that no
    key is nan. *)
Section Sorted.
Context {A : Type} (key : A -> float).

Fixpoint insert_desc (x : A) (l : list A) : list A :=
  match l with
  | [] => [x]
  | y :: l' =>
      if PyFloat.ltb (key y) (key x) then x :: l
      else y :: insert_desc x l'
  end.

Definition sorted_desc (l : list A) : list A :=
  fold_left (fun acc x => insert_desc x acc) l [].
End Sorted.

(** [l[:n]]: a negative [n] counts from the end. *)
Definition slice_to {A : Type} (n : Z) (l : list A) : list A :=
  if n <? 0 then firstn (Z.to_nat (Z.of_nat (List.length l) + n)) l
  else firstn (Z.to_nat n) l.

Definition Entry : Type := string * string * float * Acc.t.

Definition entry_cost (x : Entry) : float := snd (fst x).
Definition entry_data (x : Entry) : Acc.t := snd x.

Definition all_prefixes (prefixes : Prefixes) : list Entry :=
  map (fun kd : Key * Acc.t =>
         let (key, data) := kd in
         (fst key, snd key, Acc.total_cost_usd data, data)) prefixes.

Definition top_prefixes (TOP_N : Z) (prefixes : Prefixes) : list Entry :=
  slice_to TOP_N (sorted_desc entry_cost (all_prefixes prefixes)).

(** ** Report rows (lines 270-304) *)

Inductive cell :=
| CInt (n : Z)
| CStr (s : string).

Definition Row : Type := list cell.

Definition summary_row (rank : Z) (table_name prefix_name : string)
  (data : Acc.t) (total_size_gb : float) : Row :=
  [ CInt rank; CStr table_name; CStr prefix_name;
    CStr (Format.fmt6 (Acc.total_cost_usd data));
    CStr (Format.fmt6 total_size_gb);
    CInt (Acc.total_objects data);
    CStr ""; CStr ""; CStr ""; CStr ""; CStr "" ].

Definition breakdown_row (rank : Z) (table_name prefix_name : string)
  (b : Tier.t) : result Row :=
  size_gb <- bytes_to_gb (Tier.total_size_bytes b) ;;
  Ok [ CInt rank; CStr table_name; CStr prefix_name;
       CStr ""; CStr ""; CStr "";
       CStr (Tier.storage_class b);
       CStr (Tier.intelligent_tiering_access_tier b);
       CInt (Tier.object_count b);
       CStr (Format.fmt6 size_gb);
       CStr (Format.fmt6 (Tier.estimated_cost_usd b)) ].

Fixpoint breakdown_rows (rank : Z) (table_name prefix_name : string)
  (bs : list Tier.t) : result (list Row) :=
  match bs with
  | [] => Ok []
  | b :: bs' =>
      r <- breakdown_row rank table_name prefix_name b ;;
      rs <- breakdown_rows rank table_name prefix_name bs' ;;
      Ok (r :: rs)
  end.

(** The rows one ranked accumulator adds to [report_rows]. *)
Definition entry_rows (rank : Z) (x : Entry) : result (list Row) :=
  let '(table_name, prefix_name, _, data) := x in
  total_size_gb <- bytes_to_gb (Acc.total_size_bytes data) ;;
  rs <- breakdown_rows rank table_name prefix_name
          (sorted_desc Tier.estimated_cost_usd (Acc.breakdown data)) ;;
  Ok (summary_row rank table_name prefix_name data total_size_gb :: rs).

Fixpoint report_from (rank : Z) (top : list Entry) : result (list Row) :=
  match top with
  | [] => Ok []
  | x :: top' =>
      rs <- entry_rows rank x ;;
      rest <- report_from (rank + 1) top' ;;
      Ok (rs ++ rest)
  end.

Definition report_rows (top : list Entry) : result (list Row) :=
  report_from 1 top.

(** Steps 2 to 4 of [lambda_handler]. *)
Definition report (TOP_N : Z) (results : list (string * list (list string)))
  : result (list Row) :=
  report_rows (top_prefixes TOP_N (aggregate results)).

(** ** Waiting for the queries and reading their results (lines 188-216) *)

(** What [s3.get_object] and [csv.reader] give for one finished query:
    the call raises, or the body is read, decoded and parsed into rows,
    the header first.  Calls that raise with nothing to catch them (a
    poll, the decoding, the CSV parser) end the handler and are outside
    this model. *)
Inductive fetched :=
| GetObjectFailed
| Body (rows : list (list string)).

(** One entry of [query_ids], with what the services answer for it: the
    states [get_query_execution] reports, poll after poll, and the
    result object. *)
Record QueryRun := {
  run_table : string;
  run_states : list string;
  run_result : fetched
}.

(** [state in ["SUCCEEDED", "FAILED", "CANCELLED"]] *)
Definition is_final (state : string) : bool :=
  (String.eqb state "SUCCEEDED" || String.eqb state "FAILED"
   || String.eqb state "CANCELLED")%bool.

(** The [while True] loop: the first final state polled.  [None] when
    the reported states run out before one is final: the loop is still
    polling. *)
Fixpoint wait_for (states : list string) : option string :=
  match states with
  | [] => None
  | state :: later => if is_final state then Some state else wait_for later
  end.

(** The rows the [for row in reader] loop sees: [next(reader, None)] has
    taken the first one. *)
Definition data_rows (rows : list (list string)) : list (list string) :=
  tl rows.

(** One turn of the [for table, qid in query_ids] loop. *)
Definition collect_table (prefixes : Prefixes) (run : QueryRun)
  : option Prefixes :=
  match wait_for (run_states run) with
  | None => None
  | Some state =>
      if negb (String.eqb state "SUCCEEDED") then Some prefixes
      else
        match run_result run with
        | GetObjectFailed => Some prefixes
        | Body rows =>
            Some (fold_left (process_row (run_table run)) (data_rows rows)
                    prefixes)
        end
  end.

(** Step 2: [None] when some query never finishes. *)
Fixpoint collect_from (prefixes : Prefixes) (runs : list QueryRun)
  : option Prefixes :=
  match runs with
  | [] => Some prefixes
  | run :: runs' =>
      match collect_table prefixes run with
      | None => None
      | Some prefixes' => collect_from prefixes' runs'
      end
  end.

Definition collect (runs : list QueryRun) : option Prefixes :=
  collect_from [] runs.

(** ** The header of the report (lines 257-269) *)

Definition report_header : list string :=
  [ "rank"; "table"; "prefix"; "total_cost_usd"; "total_size_gb";
    "total_objects"; "storage_class"; "intelligent_tiering_access_tier";
    "object_count"; "size_gb"; "estimated_cost_usd" ]%string.

(** ** The summary email (lines 319-330) *)

Definition newline : string := String (ascii_of_nat 10) EmptyString.

(** The configuration the summary reads, and the partition label. *)
Record Config := {
  OUTPUT_BUCKET : string;
  REPORT_PREFIX : string;
  TOP_N : Z
}.

(** Line 307 *)
Definition report_key (cfg : Config) (dt_value : string) : string :=
  (REPORT_PREFIX cfg ++ "top_" ++ Format.int_text (TOP_N cfg)
   ++ "_s3_cost_report_" ++ dt_value ++ ".csv")%string.

(** The text and the markup of one ranked accumulator (lines 323-326). *)
Definition summary_entry (i : Z) (x : Entry) : result (string * string) :=
  let '(table_name, prefix_name, _, data) := x in
  let total_cost_fmt := ("$" ++ Format.fmt 2 (Acc.total_cost_usd data))%string in
  total_size_gb <- bytes_to_gb (Acc.total_size_bytes data) ;;
  let entry :=
    ("Table: " ++ table_name ++ ", Prefix: " ++ prefix_name
     ++ ", Cost: " ++ total_cost_fmt
     ++ ", Size: " ++ Format.fmt 2 total_size_gb ++ " GB")%string in
  Ok ((Format.int_text i ++ ". " ++ entry ++ newline)%string,
      ("<li>" ++ entry ++ "</li>")%string).

(** The [for i, ... in enumerate(top_prefixes, start=1)] loop: both
    bodies grow by one entry per turn. *)
Fixpoint summary_from (i : Z) (top : list Entry) (email : string * string)
  : result (string * string) :=
  match top with
  | [] => Ok email
  | x :: top' =>
      e <- summary_entry i x ;;
      summary_from (i + 1) top'
        ((fst email ++ fst e)%string, (snd email ++ snd e)%string)
  end.

(** [email_text] and [email_html] as [send_email] receives them. *)
Definition summary (cfg : Config) (dt_value : string) (top : list Entry)
  : result (string * string) :=
  let title :=
    ("Top " ++ Format.int_text (TOP_N cfg)
     ++ " S3 prefixes by estimated cost for dt=" ++ dt_value)%string in
  let written :=
    ("Report CSV written to: s3://" ++ OUTPUT_BUCKET cfg ++ "/"
     ++ report_key cfg dt_value)%string in
  email <- summary_from 1 top
             ((title ++ ":" ++ newline ++ newline)%string,
              ("<html><body><h3>" ++ title ++ "</h3><ol>")%string) ;;
  Ok ((fst email ++ newline ++ written ++ newline)%string,
      (snd email ++ "</ol>" ++ "<p>" ++ written ++ "</p></body></html>")%string).

(** ** The vocabulary of the properties *)

Section Descending.
Context {A : Type} (key : A -> float).

(** Each element is [>=] its successor. *)
Inductive descending : list A -> Prop :=
| desc_nil : descending []
| desc_one x : descending [x]
| desc_cons x y l :
    PyFloat.geb (key x) (key y) = true ->
    descending (y :: l) -> descending (x :: y :: l).

Definition no_nan (l : list A) : Prop :=
  Forall (fun x => PyFloat.is_nan (key x) = false) l.

End Descending.


(** A numeric field that cannot make a measurement negative: ASCII
    text that [float] rejects, or reads as a value [>= 0.0] (so neither
    negative nor nan). *)
Definition nonneg_field (val : string) : Prop :=
  FloatText.is_ascii val = true
  /\ match FloatText.parse val with
     | Ok f => PyFloat.leb PyFloat.zero f = true
     | Raise _ => True
     end.

(** A row of at least 6 fields none of whose numbers is negative. *)
Definition nonneg_row (row : list string) : Prop :=
  (6 <= List.length row)%nat ->
  nonneg_field (field row 3)
  /\ nonneg_field (field row 4)
  /\ nonneg_field (field row 5).

Definition nonneg_input (results : list (string * list (list string)))
  : Prop :=
  Forall (fun tr => Forall nonneg_row (snd tr)) results.

Definition nonneg_measurement (m : Measurement) : Prop :=
  0 <= m_object_count m
  /\ 0 <= m_total_size m
  /\ PyFloat.leb PyFloat.zero (m_estimated_cost m) = true.

Definition nonneg_totals (data : Acc.t) : Prop :=
  0 <= Acc.total_objects data
  /\ 0 <= Acc.total_size_bytes data
  /\ PyFloat.leb PyFloat.zero (Acc.total_cost_usd data) = true.


(** No accumulator of the dict has a nan total. *)
Definition totals_not_nan (prefixes : Prefixes) : Prop :=
  Forall (fun kd => PyFloat.is_nan (Acc.total_cost_usd (snd kd)) = false)
    prefixes.

(** [s = 0.0; for c in costs: s += c]: the left-to-right float sum. *)
Definition float_sum (l : list float) : float :=
  fold_left PyFloat.add l PyFloat.zero.

Definition int_sum (l : list Z) : Z := fold_left Z.add l 0.

(** [abs(x - y) <= 1e-9] *)
Definition tolerance : float := PyFloat.of_decimal false 1 (-9).

Definition within_tolerance (x y : float) : bool :=
  PyFloat.leb (PyFloat.abs (PyFloat.sub x y)) tolerance.

Definition breakdown_costs (data : Acc.t) : list float :=
  map Tier.estimated_cost_usd (Acc.breakdown data).
Definition breakdown_sizes (data : Acc.t) : list Z :=
  map Tier.total_size_bytes (Acc.breakdown data).
Definition breakdown_counts (data : Acc.t) : list Z :=
  map Tier.object_count (Acc.breakdown data).

(** The totals of an accumulator are the sums over its breakdown. *)
Definition totals_are_sums (data : Acc.t) : Prop :=
  Acc.total_size_bytes data = int_sum (breakdown_sizes data)
  /\ Acc.total_objects data = int_sum (breakdown_counts data)
  /\ Acc.total_cost_usd data = float_sum (breakdown_costs data).

(** [float(n)] does not overflow. *)
Definition fits_float (n : Z) : Prop := exists f, PyFloat.of_int n = Ok f.

Definition tier_key_dec (a b : string * string) : {a = b} + {a <> b}.
Proof. decide equality; apply string_dec. Defined.

(** The number of distinct tiers (storage class, access tier) among the
    breakdown entries of an accumulator. *)
Definition distinct_tiers (data : Acc.t) : nat :=
  List.length (nodup tier_key_dec (map Tier.key (Acc.breakdown data))).




(** The measurements the loops hand to the aggregator, in order, each
    with its table: one per row of at least 6 fields. *)
Definition table_measurements (table : string) (rows : list (list string))
  : list (string * Measurement) :=
  flat_map (fun row =>
              match normalize_row row with
              | Some m => [(table, m)]
              | None => []
              end) rows.

Definition measurements (results : list (string * list (list string)))
  : list (string * Measurement) :=
  flat_map (fun tr => table_measurements (fst tr) (snd tr)) results.

Definition key_of (tm : string * Measurement) : Key :=
  (fst tm, m_prefix (snd tm)).

(** The measurements that fall under [key]. *)
Definition under (key : Key) (ms : list (string * Measurement))
  : list (string * Measurement) :=
  filter (fun tm => key_eqb key (key_of tm)) ms.

(** The keys of a list, each once, in order of first appearance. *)
Fixpoint first_seen (keys : list Key) : list Key :=
  match keys with
  | [] => []
  | k :: keys' =>
      k :: filter (fun k' => negb (key_eqb k' k)) (first_seen keys')
  end.

Definition aggregate_onto (prefixes : Prefixes)
  (ms : list (string * Measurement)) : Prefixes :=
  fold_left (fun d tm => add_measurement (fst tm) (snd tm) d) ms prefixes.

(** The breakdown stored under a key; empty when the key is absent. *)
Definition breakdown_under (key : Key) (prefixes : Prefixes) : list Tier.t :=
  match get key prefixes with
  | Some data => Acc.breakdown data
  | None => []
  end.

(** The record stored under a key names that key. *)
Definition names_its_key (kd : Key * Acc.t) : Prop :=
  Acc.table (snd kd) = fst (fst kd) /\ Acc.prefix (snd kd) = snd (fst kd).

(** Every size the renderer converts for this entry fits a float. *)
Definition entry_fits (x : Entry) : Prop :=
  fits_float (Acc.total_size_bytes (entry_data x))
  /\ Forall (fun b => fits_float (Tier.total_size_bytes b))
       (Acc.breakdown (entry_data x)).

(** The first cell of a report row. *)
Definition rank_cell (r : Row) : cell := nth 0 r (CStr "").

(** The rank cells a ranked list renders to: each entry's rank, once for
    its summary row and once per breakdown entry. *)
Fixpoint ranks_from (rank : Z) (top : list Entry) : list cell :=
  match top with
  | [] => []
  | x :: top' =>
      repeat (CInt rank) (S (List.length (Acc.breakdown (entry_data x))))
      ++ ranks_from (rank + 1) top'
  end.

(** How many breakdown entries a list of accumulators holds. *)
Definition breakdown_total (accs : list Acc.t) : nat :=
  list_sum (map (fun data => List.length (Acc.breakdown data)) accs).

(** [x] occurs in the list, and [y] somewhere after it. *)
Inductive before {A : Type} (x y : A) : list A -> Prop :=
| before_here l : In y l -> before x y (x :: l)
| before_later z l : before x y l -> before x y (z :: l).

(** The tables step 2 hands to the aggregator: those whose query ended
    in SUCCEEDED and whose result could be read, each with its rows
    after the header. *)
Definition usable (run : QueryRun) : list (string * list (list string)) :=
  match wait_for (run_states run), run_result run with
  | Some state, Body rows =>
      if String.eqb state "SUCCEEDED"
      then [(run_table run, data_rows rows)]
      else []
  | _, _ => []
  end.

Definition finishes (run : QueryRun) : Prop :=
  exists state, wait_for (run_states run) = Some state.

(** ** Sample inputs *)

Definition short_row : list string :=
  ["p"; "STANDARD"; ""; "4"]%string.

Definition garbage_row : list string :=
  [""; ""; ""; "abc"; "xyz"; "notanumber"]%string.

Definition fractional_row : list string :=
  ["p"; "STANDARD"; ""; "3.9"; "2.5"; "1.0"]%string.

Definition mixed_row : list string :=
  ["logs"; "GLACIER"; ""; "12"; "junk"; "0.5"]%string.

Definition mixed_input : list (string * list (list string)) :=
  [("t", [mixed_row; ["logs"; "STANDARD"; ""; "3"; "1024"; "0.25"]; short_row])
  ]%string.

Definition negative_row : list string :=
  ["p"; "STANDARD"; ""; "-3"; "-1024"; "-5.0"]%string.

Definition two_prefixes : list (string * list (list string)) :=
  [("t1", [["a"; "STANDARD"; ""; "1"; "10"; "5.0"]]);
   ("t2", [["b"; "GLACIER"; ""; "1"; "10"; "3.0"]])]%string.

Definition nan_prefixes : list (string * list (list string)) :=
  [("t1", [["a"; "STANDARD"; ""; "1"; "10"; "nan"];
           ["b"; "GLACIER"; ""; "1"; "10"; "3.0"]])]%string.

Definition nan_cost_rows : list (string * list (list string)) :=
  [("t", [["p"; "STANDARD"; ""; "1"; "1"; "nan"]])]%string.

Definition row_standard : list string :=
  ["logs"; "STANDARD"; ""; "10"; "1073741824"; "21.0"]%string.

Definition two_tier_acc : Acc.t :=
  {| Acc.table := "t"; Acc.prefix := "logs";
     Acc.total_size_bytes := 1073741824 + 2048;
     Acc.total_objects := 14;
     Acc.total_cost_usd := float_or_zero "21.5";
     Acc.breakdown :=
       [ {| Tier.storage_class := "GLACIER";
            Tier.intelligent_tiering_access_tier := "";
            Tier.object_count := 4;
            Tier.total_size_bytes := 2048;
            Tier.estimated_cost_usd := float_or_zero "0.5" |};
         {| Tier.storage_class := "STANDARD";
            Tier.intelligent_tiering_access_tier := "";
            Tier.object_count := 10;
            Tier.total_size_bytes := 1073741824;
            Tier.estimated_cost_usd := float_or_zero "21.0" |} ] |}.

Definition repeated_tier : list (string * list (list string)) :=
  [("t", [["logs"; "STANDARD"; ""; "10"; "1024"; "2.0"];
          ["logs"; "STANDARD"; ""; "5"; "512"; "1.0"]])]%string.



Definition tied_prefixes : list (string * list (list string)) :=
  [("t1", [["a"; "STANDARD"; ""; "1"; "10"; "5.0"];
           ["c"; "STANDARD"; ""; "1"; "10"; "9.0"]]);
   ("t2", [["b"; "GLACIER"; ""; "1"; "10"; "5.0"]])]%string.

Definition short_only : list (string * list (list string)) :=
  [("t1", [short_row; []]); ("t2", [])]%string.

(** * Properties *)

(** ** Row normalisation *)

Lemma normalize_row_short (row : list string) :
  (List.length row < 6)%nat -> normalize_row row = None.
Proof.
  intros H. unfold normalize_row.
  destruct (Nat.ltb_spec (List.length row) 6); [reflexivity | lia].
Qed.

Lemma normalize_row_long (row : list string) :
  (6 <= List.length row)%nat ->
  normalize_row row =
    Some {| m_prefix := str_or (field row 0) "(empty)";
            m_storage_class := str_or (field row 1) "UNKNOWN";
            m_itt := str_or (field row 2) "";
            m_object_count := int_or_zero (field row 3);
            m_total_size := int_or_zero (field row 4);
            m_estimated_cost := float_or_zero (field row 5) |}.
Proof.
  intros H. unfold normalize_row.
  destruct (Nat.ltb_spec (List.length row) 6); [lia | reflexivity].
Qed.

Lemma str_or_empty (default : string) : str_or "" default = default.
Proof. reflexivity. Qed.

Lemma str_or_nonempty (x default : string) :
  x <> ""%string -> str_or x default = x.
Proof.
  intros H. unfold str_or.
  destruct (String.eqb_spec x ""); [contradiction | reflexivity].
Qed.



Lemma float_or_zero_ok (val : string) (f : float) :
  FloatText.parse val = Ok f -> float_or_zero val = f.
Proof. intros H. unfold float_or_zero. rewrite H. reflexivity. Qed.

Lemma int_or_zero_cases (val : string) :
  match FloatText.parse val with
  | Ok (S754_finite s m e) =>
      int_or_zero val = cond_Zopp s (PyFloat.trunc_mag m e)
  | _ => int_or_zero val = 0
  end.
Proof.
  unfold int_or_zero.
  destruct (FloatText.parse val) as [[s | s | | s m e] | ex]; reflexivity.
Qed.

Lemma float_or_zero_cases (val : string) :
  match FloatText.parse val with
  | Ok f => float_or_zero val = f
  | Raise _ => float_or_zero val = PyFloat.zero
  end.
Proof.
  unfold float_or_zero. destruct (FloatText.parse val); reflexivity.
Qed.

(** C7 (amended). A row of fewer than 6 fields yields no measurement and
    leaves the accumulators as they were.  A row of at least 6 fields
    always yields a measurement (no exception escapes): an empty prefix
    field becomes "(empty)" and a non-empty one is kept; an empty
    storage class becomes "UNKNOWN" and a non-empty one is kept.  All
    three numeric fields are read as floats; for a field of ASCII text:
    a field that [float] rejects becomes zero; a count or size that
    reads as a finite value is truncated toward zero, and one that
    reads as inf or nan becomes zero; a cost that [float] accepts is
    kept as read. *)
Theorem row_normalizer_contract (table : string) (prefixes : Prefixes)
  (row : list string) :
  ((List.length row < 6)%nat ->
     normalize_row row = None /\ process_row table prefixes row = prefixes)
  /\
  ((6 <= List.length row)%nat ->
     exists m, normalize_row row = Some m
       /\ (field row 0 = ""%string -> m_prefix m = "(empty)"%string)
       /\ (field row 0 <> ""%string -> m_prefix m = field row 0)
       /\ (field row 1 = ""%string -> m_storage_class m = "UNKNOWN"%string)
       /\ (field row 1 <> ""%string -> m_storage_class m = field row 1)
       /\ m_itt m = field row 2
       /\ (FloatText.is_ascii (field row 3) = true ->
           match FloatText.parse (field row 3) with
           | Ok (S754_finite s mx e) =>
               m_object_count m = cond_Zopp s (PyFloat.trunc_mag mx e)
           | _ => m_object_count m = 0
           end)
       /\ (FloatText.is_ascii (field row 4) = true ->
           match FloatText.parse (field row 4) with
           | Ok (S754_finite s mx e) =>
               m_total_size m = cond_Zopp s (PyFloat.trunc_mag mx e)
           | _ => m_total_size m = 0
           end)
       /\ (FloatText.is_ascii (field row 5) = true ->
           match FloatText.parse (field row 5) with
           | Ok f => m_estimated_cost m = f
           | Raise _ => m_estimated_cost m = PyFloat.zero
           end)).
Proof.
  split; intros H.
  - pose proof (normalize_row_short row H) as E.
    split; [exact E |]. unfold process_row. rewrite E. reflexivity.
  - eexists. split; [apply normalize_row_long; exact H |].
    cbn [m_prefix m_storage_class m_itt m_object_count m_total_size
         m_estimated_cost].
    split; [intros E; rewrite E; reflexivity |].
    split; [apply str_or_nonempty |].
    split; [intros E; rewrite E; reflexivity |].
    split; [apply str_or_nonempty |].
    split.
    { unfold str_or. destruct (String.eqb_spec (field row 2) ""); congruence. }
    split; [intros _; apply int_or_zero_cases |].
    split; intros _; [apply int_or_zero_cases | apply float_or_zero_cases].
Qed.

Lemma row_normalizer_contract_witness :
  (normalize_row short_row = None
   /\ process_row "t" [] short_row = [])
  /\ exists m, normalize_row garbage_row = Some m
       /\ m_prefix m = "(empty)"%string
       /\ m_storage_class m = "UNKNOWN"%string
       /\ m_object_count m = 0 /\ m_total_size m = 0
       /\ m_estimated_cost m = PyFloat.zero.
Proof.
  destruct (row_normalizer_contract "t" [] short_row) as [Hs _].
  destruct (row_normalizer_contract "t" [] garbage_row) as [_ Hl].
  split.
  - apply Hs. simpl. lia.
  - destruct Hl as (m & Hm & Hp & _ & Hc & _ & _ & H3 & H4 & H5).
    + simpl. lia.
    + exists m. repeat split.
      * exact Hm.
      * apply Hp. reflexivity.
      * apply Hc. reflexivity.
      * exact (H3 eq_refl).
      * exact (H4 eq_refl).
      * exact (H5 eq_refl).
Defined.

(** C7, as stated, fails: "3.9" and "2.5" are not integers, yet as count
    and size they are truncated to 3 and 2, not coerced to zero. *)
Lemma fractional_count_counterexample :
  FloatText.is_int_text "3.9" = false
  /\ FloatText.is_int_text "2.5" = false
  /\ exists m, normalize_row fractional_row = Some m
       /\ m_object_count m = 3
       /\ m_total_size m = 2.
Proof.
  split; [reflexivity |]. split; [reflexivity |].
  eexists. split; [vm_compute; reflexivity |]. split; reflexivity.
Qed.

(** ** Integer coercion *)

(** [trunc_mag m e] is the integer part of [m * 2^e]. *)
Lemma trunc_mag_spec (m : positive) (e : Z) :
  (0 <= e -> PyFloat.trunc_mag m e = Zpos m * 2 ^ e)
  /\ (e < 0 ->
      PyFloat.trunc_mag m e * 2 ^ (- e) <= Zpos m
        < (PyFloat.trunc_mag m e + 1) * 2 ^ (- e)).
Proof.
  unfold PyFloat.trunc_mag. split; intros H.
  - destruct (Z.leb_spec 0 e); [| lia].
    apply Z.shiftl_mul_pow2. exact H.
  - destruct (Z.leb_spec 0 e); [lia |].
    rewrite Z.shiftr_div_pow2 by lia.
    assert (Hp : 0 < 2 ^ (- e)) by (apply Z.pow_pos_nonneg; lia).
    pose proof (Z.div_mod (Zpos m) (2 ^ (- e)) ltac:(lia)) as Hd.
    pose proof (Z.mod_pos_bound (Zpos m) (2 ^ (- e)) Hp) as Hm.
    nia.
Qed.

Lemma trunc_mag_nonneg (m : positive) (e : Z) : 0 <= PyFloat.trunc_mag m e.
Proof.
  unfold PyFloat.trunc_mag. destruct (0 <=? e).
  - apply Z.shiftl_nonneg. lia.
  - apply Z.shiftr_nonneg. lia.
Qed.

(** C9 (amended). What [int_or_zero] returns for a field of ASCII text
    is decided by what [float] makes of the field.  A finite value
    [(-1)^s * m * 2^e] is truncated
    toward zero: the result has the sign of the value and as magnitude
    the integer part of [m * 2^e]; "3.9" gives 3 and "-3.9" gives -3.
    Zero is returned for a zero, for a field that [float] rejects, and
    also for the two values [float] accepts but [int] rejects: the
    infinities and nan. *)
Theorem int_or_zero_truncates (val : string) :
  (FloatText.is_ascii val = true ->
   match FloatText.parse val with
   | Ok (S754_finite s m e) =>
       int_or_zero val = cond_Zopp s (PyFloat.trunc_mag m e)
       /\ (0 <= e -> PyFloat.trunc_mag m e = Zpos m * 2 ^ e)
       /\ (e < 0 ->
           PyFloat.trunc_mag m e * 2 ^ (- e) <= Zpos m
             < (PyFloat.trunc_mag m e + 1) * 2 ^ (- e))
   | Ok (S754_zero _) => int_or_zero val = 0
   | Ok (S754_infinity _) => int_or_zero val = 0
   | Ok S754_nan => int_or_zero val = 0
   | Raise _ => int_or_zero val = 0
   end)
  /\ int_or_zero "3.9" = 3
  /\ int_or_zero "-3.9" = -3.
Proof.
  split; [intros _ | split; vm_compute; reflexivity].
  unfold int_or_zero.
  destruct (FloatText.parse val) as [[s | s | | s m e] | ex]; cbn;
    try reflexivity.
  split; [reflexivity | apply trunc_mag_spec].
Qed.

Lemma int_or_zero_truncates_witness :
  FloatText.is_ascii "1e3" = true
  /\ FloatText.parse "1e3" = Ok (S754_finite false 8796093022208000 (-43))
  /\ int_or_zero "1e3" = PyFloat.trunc_mag 8796093022208000 (-43)
  /\ int_or_zero "1e3" = 1000.
Proof.
  pose proof (proj1 (int_or_zero_truncates "1e3") eq_refl) as H.
  split; [reflexivity |]. split; [vm_compute; reflexivity |].
  split; [exact (proj1 H) | vm_compute; reflexivity].
Defined.

(** C9, as stated, fails: "inf" and "nan" parse as floats, yet they are
    coerced to 0. *)
Lemma int_or_zero_inf_counterexample :
  FloatText.parse "inf" = Ok (S754_infinity false)
  /\ int_or_zero "inf" = 0
  /\ FloatText.parse "nan" = Ok S754_nan
  /\ int_or_zero "nan" = 0.
Proof. repeat split; vm_compute; reflexivity. Qed.

(** ** The dict of accumulators *)

Lemma key_eqb_spec (k k' : Key) : reflect (k = k') (key_eqb k k').
Proof.
  destruct k as [a b], k' as [a' b']. unfold key_eqb. cbn.
  destruct (String.eqb_spec a a'), (String.eqb_spec b b'); cbn;
    constructor; congruence.
Qed.

Lemma key_eqb_refl (k : Key) : key_eqb k k = true.
Proof. destruct (key_eqb_spec k k); congruence. Qed.

Lemma contains_In (key : Key) (prefixes : Prefixes) :
  contains key prefixes = true <-> In key (map fst prefixes).
Proof.
  induction prefixes as [| [k data] rest IH]; cbn.
  - split; [discriminate | tauto].
  - destruct (key_eqb_spec key k) as [-> | N].
    + tauto.
    + rewrite IH. split; [tauto | intros [E | I]; [congruence | exact I]].
Qed.

Lemma contains_get (key : Key) (prefixes : Prefixes) :
  contains key prefixes = true <-> exists data, get key prefixes = Some data.
Proof.
  induction prefixes as [| [k data] rest IH]; cbn.
  - split; [discriminate | intros [d E]; discriminate].
  - destruct (key_eqb key k); [| exact IH].
    split; [eexists; reflexivity | reflexivity].
Qed.

Lemma update_keys (key : Key) (f : Acc.t -> Acc.t) (prefixes : Prefixes) :
  map fst (update key f prefixes) = map fst prefixes.
Proof.
  induction prefixes as [| [k data] rest IH]; cbn; [reflexivity |].
  destruct (key_eqb key k); cbn; congruence.
Qed.


Lemma get_update_same (key : Key) (f : Acc.t -> Acc.t) (prefixes : Prefixes) :
  get key (update key f prefixes) = option_map f (get key prefixes).
Proof.
  induction prefixes as [| [k data] rest IH]; cbn; [reflexivity |].
  destruct (key_eqb key k) eqn:E; cbn; rewrite E; [reflexivity | exact IH].
Qed.

Lemma get_update_other (key k' : Key) (f : Acc.t -> Acc.t)
  (prefixes : Prefixes) :
  key <> k' -> get k' (update key f prefixes) = get k' prefixes.
Proof.
  intros N. induction prefixes as [| [k data] rest IH]; cbn; [reflexivity |].
  destruct (key_eqb_spec key k) as [-> | Nk]; cbn.
  - destruct (key_eqb_spec k' k); [congruence | reflexivity].
  - destruct (key_eqb k' k); [reflexivity | exact IH].
Qed.

Lemma get_app_new (key : Key) (data : Acc.t) (prefixes : Prefixes) :
  contains key prefixes = false ->
  get key (prefixes ++ [(key, data)]) = Some data.
Proof.
  induction prefixes as [| [k d] rest IH]; cbn.
  - rewrite key_eqb_refl. reflexivity.
  - destruct (key_eqb key k); [discriminate | exact IH].
Qed.

Lemma get_app_other (key k' : Key) (data : Acc.t) (prefixes : Prefixes) :
  key <> k' -> get k' (prefixes ++ [(key, data)]) = get k' prefixes.
Proof.
  intros N. induction prefixes as [| [k d] rest IH]; cbn.
  - destruct (key_eqb_spec k' key); [congruence | reflexivity].
  - destruct (key_eqb k' k); [reflexivity | exact IH].
Qed.

(** What [add_measurement] does to the dict, key by key. *)
Lemma add_measurement_fresh (table : string) (m : Measurement)
  (prefixes : Prefixes) :
  contains (table, m_prefix m) prefixes = false ->
  add_measurement table m prefixes =
    prefixes ++ [((table, m_prefix m),
                  accumulate m (new_acc table (m_prefix m)))].
Proof.
  intros H. unfold add_measurement. rewrite H.
  induction prefixes as [| [k d] rest IH]; cbn.
  - rewrite key_eqb_refl. reflexivity.
  - cbn in H. destruct (key_eqb (table, m_prefix m) k); [discriminate |].
    rewrite (IH H). reflexivity.
Qed.

Lemma add_measurement_known (table : string) (m : Measurement)
  (prefixes : Prefixes) :
  contains (table, m_prefix m) prefixes = true ->
  add_measurement table m prefixes =
    update (table, m_prefix m) (accumulate m) prefixes.
Proof. intros H. unfold add_measurement. rewrite H. reflexivity. Qed.

Lemma add_measurement_get (table : string) (m : Measurement)
  (prefixes : Prefixes) :
  get (table, m_prefix m) (add_measurement table m prefixes) =
    Some (accumulate m
            match get (table, m_prefix m) prefixes with
            | Some data => data
            | None => new_acc table (m_prefix m)
            end).
Proof.
  destruct (contains (table, m_prefix m) prefixes) eqn:C.
  - rewrite add_measurement_known by exact C. rewrite get_update_same.
    apply contains_get in C. destruct C as [d ->]. reflexivity.
  - rewrite add_measurement_fresh by exact C.
    rewrite get_app_new by exact C.
    destruct (get (table, m_prefix m) prefixes) eqn:G; [| reflexivity].
    assert (contains (table, m_prefix m) prefixes = true)
      by (apply contains_get; eauto).
    congruence.
Qed.


(** ** Comparing floats *)

Lemma SFcompare_antisym (x y : float) :
  SFcompare y x = option_map CompOpp (SFcompare x y).
Proof.
  destruct x as [sx | sx | | sx mx ex], y as [sy | sy | | sy my ey]; cbn;
    try reflexivity;
    try (destruct sx; reflexivity);
    try (destruct sy; reflexivity);
    try (destruct sx, sy; reflexivity).
  assert (Hm : Pos.compare_cont Eq my mx = CompOpp (Pos.compare_cont Eq mx my))
    by (rewrite (Pos.compare_cont_antisym mx my Eq); reflexivity).
  destruct sx, sy; cbn; try reflexivity;
    rewrite (Z.compare_antisym ex ey), Hm;
    destruct (ex ?= ey); cbn; try reflexivity;
    destruct (Pos.compare_cont Eq mx my); reflexivity.
Qed.

(** Without nan, [<] and [>=] are complementary. *)
Lemma not_ltb_geb (x y : float) :
  PyFloat.is_nan x = false -> PyFloat.is_nan y = false ->
  PyFloat.ltb x y = false -> PyFloat.geb x y = true.
Proof.
  unfold PyFloat.ltb, PyFloat.geb, PyFloat.leb, SFltb, SFleb.
  intros Nx Ny. rewrite (SFcompare_antisym x y).
  destruct (SFcompare x y) as [[ | | ] |] eqn:E; cbn; try congruence.
  destruct x, y; cbn in *; discriminate.
Qed.

Lemma ltb_geb (x y : float) :
  PyFloat.ltb x y = true -> PyFloat.geb y x = true.
Proof.
  unfold PyFloat.ltb, PyFloat.geb, PyFloat.leb, SFltb, SFleb.
  destruct (SFcompare x y) as [[ | | ] |]; congruence.
Qed.

Lemma geb_not_nan (x y : float) :
  PyFloat.geb x y = true ->
  PyFloat.is_nan x = false /\ PyFloat.is_nan y = false.
Proof.
  unfold PyFloat.geb, PyFloat.leb, SFleb.
  destruct x, y; cbn; intros H; split; congruence.
Qed.

(** ** [sorted] and the slice *)

Section SortedFacts.
Context {A : Type} (key : A -> float).

Lemma insert_desc_length (x : A) (l : list A) :
  List.length (insert_desc key x l) = S (List.length l).
Proof.
  induction l as [| y l IH]; cbn; [reflexivity |].
  destruct (PyFloat.ltb (key y) (key x)); cbn; congruence.
Qed.

Lemma insert_desc_perm (x : A) (l : list A) :
  Permutation (x :: l) (insert_desc key x l).
Proof.
  induction l as [| y l IH]; cbn; [reflexivity |].
  destruct (PyFloat.ltb (key y) (key x)); [reflexivity |].
  rewrite perm_swap. constructor. exact IH.
Qed.

Lemma insert_desc_descending (x : A) (l : list A) :
  PyFloat.is_nan (key x) = false -> no_nan key l ->
  descending key l -> descending key (insert_desc key x l).
Proof.
  intros Nx Nl D. induction D as [| y | y z l G D IH]; cbn.
  - constructor.
  - inversion_clear Nl as [| ? ? Ny _].
    destruct (PyFloat.ltb (key y) (key x)) eqn:E.
    + constructor; [apply ltb_geb; exact E | constructor].
    + constructor; [apply not_ltb_geb; assumption | constructor].
  - inversion_clear Nl as [| ? ? Ny Nzl].
    destruct (PyFloat.ltb (key y) (key x)) eqn:E.
    + constructor; [apply ltb_geb; exact E |].
      constructor; assumption.
    + specialize (IH Nzl). cbn in IH.
      destruct (PyFloat.ltb (key z) (key x)) eqn:E'.
      * constructor; [apply not_ltb_geb; assumption | exact IH].
      * constructor; [exact G | exact IH].
Qed.

Lemma fold_insert_length (l acc : list A) :
  List.length (fold_left (fun acc x => insert_desc key x acc) l acc)
    = (List.length l + List.length acc)%nat.
Proof.
  revert acc. induction l as [| x l IH]; intros acc; cbn; [reflexivity |].
  rewrite IH, insert_desc_length. lia.
Qed.

Lemma fold_insert_perm (l acc : list A) :
  Permutation (l ++ acc)
    (fold_left (fun acc x => insert_desc key x acc) l acc).
Proof.
  revert acc. induction l as [| x l IH]; intros acc; cbn; [reflexivity |].
  rewrite <- IH, <- insert_desc_perm. apply Permutation_middle.
Qed.

Lemma fold_insert_descending (l acc : list A) :
  no_nan key l -> no_nan key acc -> descending key acc ->
  descending key (fold_left (fun acc x => insert_desc key x acc) l acc).
Proof.
  revert acc. induction l as [| x l IH]; intros acc Nl Na D; cbn;
    [exact D |].
  inversion_clear Nl as [| ? ? Nx Nl'].
  apply IH; [exact Nl' | | apply insert_desc_descending; assumption].
  unfold no_nan. rewrite <- (insert_desc_perm x acc).
  constructor; assumption.
Qed.

Lemma sorted_desc_length (l : list A) :
  List.length (sorted_desc key l) = List.length l.
Proof. unfold sorted_desc. rewrite fold_insert_length. cbn. lia. Qed.

Lemma sorted_desc_perm (l : list A) : Permutation l (sorted_desc key l).
Proof.
  unfold sorted_desc. rewrite <- fold_insert_perm, app_nil_r. reflexivity.
Qed.

Lemma sorted_desc_descending (l : list A) :
  no_nan key l -> descending key (sorted_desc key l).
Proof.
  intros N. apply fold_insert_descending; [exact N | constructor | constructor].
Qed.

Lemma firstn_descending (n : nat) (l : list A) :
  descending key l -> descending key (firstn n l).
Proof.
  intros D. revert n. induction D as [| x | x y l G D IH]; intros n.
  - rewrite firstn_nil. constructor.
  - destruct n as [| [| n]]; cbn; constructor.
  - destruct n as [| [| n]]; cbn; try constructor; [exact G |].
    exact (IH (S n)).
Qed.

Lemma slice_to_descending (n : Z) (l : list A) :
  descending key l -> descending key (slice_to n l).
Proof.
  intros D. unfold slice_to. destruct (n <? 0); apply firstn_descending, D.
Qed.

(** [descending], read position by position. *)
Lemma descending_adjacent (l : list A) :
  descending key l <->
  forall i x y, nth_error l i = Some x -> nth_error l (S i) = Some y ->
                PyFloat.geb (key x) (key y) = true.
Proof.
  split.
  - intros D. induction D as [| x | x y l G D IH]; intros i a b Ha Hb.
    + destruct i; discriminate.
    + destruct i as [| i]; cbn in Hb; [discriminate |].
      destruct i; discriminate.
    + destruct i as [| i]; cbn in Ha, Hb.
      * congruence.
      * exact (IH i a b Ha Hb).
  - induction l as [| x [| y l] IH]; intros H; try constructor.
    + exact (H 0%nat x y eq_refl eq_refl).
    + apply IH. intros i a b Ha Hb. exact (H (S i) a b Ha Hb).
Qed.

End SortedFacts.

Lemma slice_to_length {A : Type} (n : Z) (l : list A) :
  Z.of_nat (List.length (slice_to n l)) =
    if n <? 0 then Z.max 0 (Z.of_nat (List.length l) + n)
    else Z.min n (Z.of_nat (List.length l)).
Proof.
  unfold slice_to. destruct (Z.ltb_spec n 0); rewrite length_firstn; lia.
Qed.

(** ** Induction over the aggregation loop *)

Lemma aggregate_from_ind (P : Prefixes -> Prop) :
  (forall table m prefixes,
      P prefixes -> P (add_measurement table m prefixes)) ->
  forall results prefixes,
    P prefixes -> P (fold_left process_table results prefixes).
Proof.
  intros Hstep results.
  induction results as [| [table rows] results IH]; intros prefixes H0;
    cbn; [exact H0 |].
  apply IH. unfold process_table. cbn.
  clear IH. revert prefixes H0.
  induction rows as [| row rows IHr]; intros prefixes H0; cbn; [exact H0 |].
  apply IHr. unfold process_row.
  destruct (normalize_row row); [apply Hstep; exact H0 | exact H0].
Qed.

Lemma aggregate_ind (P : Prefixes -> Prop) :
  P [] ->
  (forall table m prefixes,
      P prefixes -> P (add_measurement table m prefixes)) ->
  forall results, P (aggregate results).
Proof.
  intros H0 Hstep results. unfold aggregate.
  apply aggregate_from_ind; assumption.
Qed.

(** The dict holds each [(table, prefix)] once: its length is the number
    of distinct accumulators. *)
Lemma aggregate_keys_nodup (results : list (string * list (list string))) :
  NoDup (map fst (aggregate results)).
Proof.
  apply aggregate_ind; [constructor |].
  intros table m prefixes H.
  destruct (contains (table, m_prefix m) prefixes) eqn:C.
  - rewrite add_measurement_known by exact C. rewrite update_keys. exact H.
  - rewrite add_measurement_fresh by exact C.
    rewrite map_app. cbn.
    apply (Permutation_NoDup (l := (table, m_prefix m) :: map fst prefixes)).
    + rewrite Permutation_app_comm. reflexivity.
    + constructor; [| exact H].
      intros I. apply contains_In in I. congruence.
Qed.

(** ** Ranking *)

Lemma all_prefixes_length (prefixes : Prefixes) :
  List.length (all_prefixes prefixes) = List.length prefixes.
Proof. apply length_map. Qed.

(** The slice of the ranking, for every [TOP_N]. *)
Lemma top_prefixes_length (N : Z) (prefixes : Prefixes) :
  Z.of_nat (List.length (top_prefixes N prefixes)) =
    if N <? 0 then Z.max 0 (Z.of_nat (List.length prefixes) + N)
    else Z.min N (Z.of_nat (List.length prefixes)).
Proof.
  unfold top_prefixes.
  rewrite slice_to_length, sorted_desc_length, all_prefixes_length.
  reflexivity.
Qed.

(** C1 (amended). For every dict of accumulators and every N >= 0 the
    ranked list has length min(N, number of accumulators): it is empty
    for N = 0, and for N at least the number of accumulators it holds
    every accumulator once, with no padding. *)
Theorem top_n_bounded (N : Z) (prefixes : Prefixes) :
  0 <= N ->
  Z.of_nat (List.length (top_prefixes N prefixes))
    = Z.min N (Z.of_nat (List.length prefixes))
  /\ (N = 0 -> top_prefixes N prefixes = [])
  /\ (Z.of_nat (List.length prefixes) <= N ->
      Permutation (all_prefixes prefixes) (top_prefixes N prefixes)).
Proof.
  intros H. pose proof (top_prefixes_length N prefixes) as L.
  destruct (Z.ltb_spec N 0); [lia |].
  split; [exact L | split].
  - intros ->. reflexivity.
  - intros Hall. unfold top_prefixes, slice_to.
    destruct (Z.ltb_spec N 0); [lia |].
    rewrite firstn_all2.
    + apply sorted_desc_perm.
    + rewrite sorted_desc_length, all_prefixes_length. lia.
Qed.

Lemma top_n_bounded_witness :
  Z.of_nat (List.length (top_prefixes 1 (aggregate two_prefixes)))
    = Z.min 1 (Z.of_nat (List.length (aggregate two_prefixes)))
  /\ (1 = 0 -> top_prefixes 1 (aggregate two_prefixes) = [])
  /\ (Z.of_nat (List.length (aggregate two_prefixes)) <= 1 ->
      Permutation (all_prefixes (aggregate two_prefixes))
        (top_prefixes 1 (aggregate two_prefixes))).
Proof. apply (top_n_bounded 1 (aggregate two_prefixes)). lia. Defined.

(** C1, as stated, fails for N < 0: [l[:-1]] drops the last entry only. *)
Lemma top_n_negative_counterexample :
  List.length (aggregate two_prefixes) = 2%nat
  /\ List.length (top_prefixes (-1) (aggregate two_prefixes)) = 1%nat
  /\ top_prefixes (-1) (aggregate two_prefixes) <> [].
Proof. repeat split. vm_compute. discriminate. Qed.

(** The scenario of the spec: costs 5.0 and 3.0 in two tables, N = 1. *)
Lemma top_1_of_two :
  map (fun x => (fst (fst x))) (top_prefixes 1 (aggregate two_prefixes))
    = [("t1", "a")%string].
Proof. vm_compute. reflexivity. Qed.

Lemma all_prefixes_cost (prefixes : Prefixes) (x : Entry) :
  In x (all_prefixes prefixes) ->
  entry_cost x = Acc.total_cost_usd (entry_data x)
  /\ In (fst (fst x), entry_data x) prefixes.
Proof.
  unfold all_prefixes. rewrite in_map_iff.
  intros [[[t p] data] [<- I]]. split; [reflexivity | exact I].
Qed.

Lemma slice_to_In {A : Type} (n : Z) (l : list A) (x : A) :
  In x (slice_to n l) -> In x l.
Proof.
  unfold slice_to. destruct (n <? 0); intros I;
    match type of I with
    | In _ (firstn ?k _) =>
        rewrite <- (firstn_skipn k l); apply in_or_app; left; exact I
    end.
Qed.

Lemma top_prefixes_In (N : Z) (prefixes : Prefixes) (x : Entry) :
  In x (top_prefixes N prefixes) -> In x (all_prefixes prefixes).
Proof.
  intros I. apply slice_to_In in I.
  apply (Permutation_in x (Permutation_sym (sorted_desc_perm _ _)) I).
Qed.

(** C4 (amended). When no accumulator's total cost is nan, the ranked
    list is non-increasing in total cost for every N: entries i and
    i+1 always satisfy total_cost(i) >= total_cost(i+1). *)
Theorem rank_ordering (N : Z) (prefixes : Prefixes) :
  totals_not_nan prefixes ->
  forall i x y,
    nth_error (top_prefixes N prefixes) i = Some x ->
    nth_error (top_prefixes N prefixes) (S i) = Some y ->
    PyFloat.geb (Acc.total_cost_usd (entry_data x))
                (Acc.total_cost_usd (entry_data y)) = true.
Proof.
  intros Hn i x y Hx Hy.
  destruct (all_prefixes_cost prefixes x) as [<- _];
    [eapply top_prefixes_In, nth_error_In; exact Hx |].
  destruct (all_prefixes_cost prefixes y) as [<- _];
    [eapply top_prefixes_In, nth_error_In; exact Hy |].
  assert (D : descending entry_cost (top_prefixes N prefixes)).
  { apply slice_to_descending, sorted_desc_descending.
    unfold no_nan, all_prefixes. rewrite Forall_map.
    eapply Forall_impl; [| exact Hn].
    intros [k data] H. exact H. }
  exact (proj1 (descending_adjacent entry_cost _) D i x y Hx Hy).
Qed.

Lemma rank_ordering_witness :
  totals_not_nan (aggregate two_prefixes)
  /\ exists x y,
       nth_error (top_prefixes 15 (aggregate two_prefixes)) 0 = Some x
       /\ nth_error (top_prefixes 15 (aggregate two_prefixes)) 1 = Some y
       /\ PyFloat.geb (Acc.total_cost_usd (entry_data x))
                      (Acc.total_cost_usd (entry_data y)) = true.
Proof.
  assert (Hn : totals_not_nan (aggregate two_prefixes))
    by (vm_compute; repeat constructor).
  split; [exact Hn |].
  do 2 eexists.
  split; [vm_compute; reflexivity |].
  split; [vm_compute; reflexivity |].
  apply (rank_ordering 15 (aggregate two_prefixes) Hn 0%nat);
    vm_compute; reflexivity.
Defined.

(** C4, as stated, fails: a cost field "nan" is a float, and no order
    of the ranked list makes [>=] hold next to it. *)
Lemma rank_ordering_nan_counterexample :
  exists x y,
    nth_error (top_prefixes 15 (aggregate nan_prefixes)) 0 = Some x
    /\ nth_error (top_prefixes 15 (aggregate nan_prefixes)) 1 = Some y
    /\ PyFloat.geb (Acc.total_cost_usd (entry_data x))
                   (Acc.total_cost_usd (entry_data y)) = false.
Proof. do 2 eexists. repeat split; vm_compute; reflexivity. Qed.

(** ** The sum invariant *)

Lemma sub_diag (x : float) :
  PyFloat.is_finite x = true -> PyFloat.sub x x = PyFloat.zero.
Proof.
  destruct x as [s | s | | s m e]; cbn; try discriminate; intros _.
  - destruct s; reflexivity.
  - unfold PyFloat.sub, SFsub. rewrite Z.sub_diag. reflexivity.
Qed.

Lemma within_tolerance_refl (x : float) :
  PyFloat.is_finite x = true -> within_tolerance x x = true.
Proof.
  intros H. unfold within_tolerance. rewrite sub_diag by exact H.
  vm_compute. reflexivity.
Qed.

Lemma new_acc_sums (table prefix : string) :
  totals_are_sums (new_acc table prefix).
Proof. repeat split. Qed.

Lemma accumulate_sums (m : Measurement) (data : Acc.t) :
  totals_are_sums data -> totals_are_sums (accumulate m data).
Proof.
  unfold totals_are_sums, breakdown_sizes, breakdown_counts, breakdown_costs,
    int_sum, float_sum.
  intros (Hs & Ho & Hc). unfold accumulate.
  cbn [Acc.total_size_bytes Acc.total_objects Acc.total_cost_usd
       Acc.breakdown].
  rewrite !map_app, !fold_left_app. cbn [map fold_left].
  rewrite <- Hs, <- Ho, <- Hc. repeat split.
Qed.

Lemma update_Forall (P : Acc.t -> Prop) (key : Key) (f : Acc.t -> Acc.t)
  (prefixes : Prefixes) :
  (forall data, P data -> P (f data)) ->
  Forall (fun kd => P (snd kd)) prefixes ->
  Forall (fun kd => P (snd kd)) (update key f prefixes).
Proof.
  intros Hf H. induction H as [| [k data] rest Hd Hrest IH]; cbn;
    [constructor |].
  destruct (key_eqb key k); constructor; cbn; auto.
Qed.

Lemma add_measurement_Forall (P : Acc.t -> Prop) (table : string)
  (m : Measurement) (prefixes : Prefixes) :
  P (new_acc table (m_prefix m)) ->
  (forall data, P data -> P (accumulate m data)) ->
  Forall (fun kd => P (snd kd)) prefixes ->
  Forall (fun kd => P (snd kd)) (add_measurement table m prefixes).
Proof.
  intros Hnew Hacc H. unfold add_measurement.
  apply update_Forall; [exact Hacc |].
  destruct (contains (table, m_prefix m) prefixes); [exact H |].
  apply Forall_app. split; [exact H |]. constructor; [exact Hnew | constructor].
Qed.

Lemma aggregate_sums (results : list (string * list (list string))) :
  Forall (fun kd => totals_are_sums (snd kd)) (aggregate results).
Proof.
  apply aggregate_ind; [constructor |].
  intros table m prefixes H.
  apply add_measurement_Forall;
    [apply new_acc_sums | apply accumulate_sums | exact H].
Qed.

(** C3 (amended). After aggregation of any input, every accumulator's
    total_size_bytes and total_objects equal the integer sums of its
    breakdown entries' sizes and counts, and its total_cost_usd is
    exactly the left-to-right float sum of its breakdown costs; when that
    total is finite (neither inf nor nan) the two are within 1e-9 of
    each other. *)
Theorem sum_invariant (results : list (string * list (list string))) :
  Forall (fun kd : Key * Acc.t =>
            let data := snd kd in
            Acc.total_size_bytes data = int_sum (breakdown_sizes data)
            /\ Acc.total_objects data = int_sum (breakdown_counts data)
            /\ Acc.total_cost_usd data = float_sum (breakdown_costs data)
            /\ (PyFloat.is_finite (Acc.total_cost_usd data) = true ->
                within_tolerance (Acc.total_cost_usd data)
                  (float_sum (breakdown_costs data)) = true))
    (aggregate results).
Proof.
  eapply Forall_impl; [| apply aggregate_sums].
  intros [k data] (Hs & Ho & Hc). cbn in *.
  repeat split; try assumption.
  intros F. rewrite <- Hc. apply within_tolerance_refl, F.
Qed.

(** C3, as stated, fails: with a cost field "nan" the total and the sum
    of the breakdown costs are both nan, which is neither equal to
    itself nor within any tolerance of itself. *)
Lemma sum_invariant_nan_counterexample :
  exists data,
    aggregate nan_cost_rows = [(("t", "p")%string, data)]
    /\ PyFloat.eqb (Acc.total_cost_usd data)
         (float_sum (breakdown_costs data)) = false
    /\ within_tolerance (Acc.total_cost_usd data)
         (float_sum (breakdown_costs data)) = false.
Proof. eexists. repeat split; vm_compute; reflexivity. Qed.

(** ** Order of arrival *)







(** ** Rendering one accumulator *)

Lemma nodup_length_le {A : Type} (dec : forall a b : A, {a = b} + {a <> b})
  (l : list A) : (List.length (nodup dec l) <= List.length l)%nat.
Proof.
  induction l as [| x l IH]; cbn; [lia |].
  destruct (in_dec dec x l); cbn; lia.
Qed.

Lemma distinct_tiers_le (data : Acc.t) :
  (distinct_tiers data <= List.length (Acc.breakdown data))%nat.
Proof.
  unfold distinct_tiers.
  rewrite <- (length_map Tier.key (Acc.breakdown data)).
  apply nodup_length_le.
Qed.

Lemma distinct_tiers_nodup (data : Acc.t) :
  NoDup (map Tier.key (Acc.breakdown data)) ->
  distinct_tiers data = List.length (Acc.breakdown data).
Proof.
  intros H. unfold distinct_tiers.
  rewrite nodup_fixed_point by exact H. apply length_map.
Qed.

Lemma bytes_to_gb_fits (n : Z) :
  fits_float n ->
  bytes_to_gb n
    = Ok (PyFloat.div (PyFloat.round_Z n) (PyFloat.round_Z (2 ^ 30))).
Proof.
  intros [f E]. unfold bytes_to_gb. rewrite E. cbn [bind].
  unfold PyFloat.of_int in E.
  destruct (PyFloat.round_Z n); try discriminate; injection E as <-;
    reflexivity.
Qed.


Lemma breakdown_rows_fits (rank : Z) (table_name prefix_name : string)
  (bs : list Tier.t) :
  Forall (fun b => fits_float (Tier.total_size_bytes b)) bs ->
  exists rows,
    breakdown_rows rank table_name prefix_name bs = Ok rows
    /\ Forall2 (fun b r => breakdown_row rank table_name prefix_name b = Ok r)
         bs rows.
Proof.
  induction 1 as [| b bs Hb Hbs (rows & E & F)]; cbn.
  - exists []. split; [reflexivity | constructor].
  - unfold breakdown_row at 1.
    rewrite (bytes_to_gb_fits _ Hb). cbn [bind]. rewrite E. cbn [bind].
    eexists. split; [reflexivity |].
    constructor; [| exact F].
    unfold breakdown_row. rewrite (bytes_to_gb_fits _ Hb). reflexivity.
Qed.

(** C2 (amended). For an accumulator whose sizes convert to float, the
    renderer emits the summary row followed by exactly one breakdown row
    per breakdown entry, that is 1 + (number of rows aggregated into the
    accumulator) rows.  The breakdown rows render a reordering of the
    breakdown list that is descending in cost when no cost is nan.  The
    count is 1 + (number of distinct tiers) when no tier occurs twice in
    the breakdown, and never less. *)
Theorem entry_row_count (rank : Z) (table_name prefix_name : string)
  (cost : float) (data : Acc.t) :
  fits_float (Acc.total_size_bytes data) ->
  Forall (fun b => fits_float (Tier.total_size_bytes b)) (Acc.breakdown data) ->
  exists total_size_gb sorted details,
    entry_rows rank (table_name, prefix_name, cost, data)
      = Ok (summary_row rank table_name prefix_name data total_size_gb
              :: details)
    /\ List.length details = List.length (Acc.breakdown data)
    /\ Permutation (Acc.breakdown data) sorted
    /\ Forall2 (fun b r => breakdown_row rank table_name prefix_name b = Ok r)
         sorted details
    /\ (no_nan Tier.estimated_cost_usd (Acc.breakdown data) ->
        descending Tier.estimated_cost_usd sorted)
    /\ (NoDup (map Tier.key (Acc.breakdown data)) ->
        List.length details = distinct_tiers data)
    /\ (distinct_tiers data <= List.length details)%nat.
Proof.
  intros Ht Hb.
  set (sorted := sorted_desc Tier.estimated_cost_usd (Acc.breakdown data)).
  assert (P : Permutation (Acc.breakdown data) sorted)
    by apply sorted_desc_perm.
  destruct (breakdown_rows_fits rank table_name prefix_name sorted)
    as (details & E & F).
  { eapply Permutation_Forall; [exact P | exact Hb]. }
  assert (L : List.length details = List.length (Acc.breakdown data)).
  { rewrite <- (Forall2_length F). symmetry. apply Permutation_length, P. }
  eexists. exists sorted, details.
  split.
  { unfold entry_rows. rewrite (bytes_to_gb_fits _ Ht). cbn [bind].
    fold sorted. rewrite E. reflexivity. }
  split; [exact L |]. split; [exact P |]. split; [exact F |].
  split; [apply sorted_desc_descending |].
  split.
  - intros N. rewrite L. symmetry. apply distinct_tiers_nodup, N.
  - rewrite L. apply distinct_tiers_le.
Qed.

Lemma entry_row_count_witness :
  exists total_size_gb details,
    entry_rows 1 ("t"%string, "logs"%string, float_or_zero "21.5", two_tier_acc)
      = Ok (summary_row 1 "t" "logs" two_tier_acc total_size_gb :: details)
    /\ List.length details = 2%nat
    /\ distinct_tiers two_tier_acc = 2%nat.
Proof.
  destruct (entry_row_count 1 "t" "logs" (float_or_zero "21.5") two_tier_acc)
    as (g & sorted & details & E & L & _ & _ & _ & D & _).
  - eexists. vm_compute. reflexivity.
  - repeat constructor; eexists; vm_compute; reflexivity.
  - exists g, details. split; [exact E |]. split; [exact L |].
    rewrite <- D; [exact L |]. vm_compute.
    repeat constructor; cbn; intuition discriminate.
Defined.

(** C2, as stated, fails: a tier that arrives twice is appended twice,
    and the accumulator renders 3 rows for 1 distinct tier. *)
Lemma repeated_tier_counterexample :
  exists x rows,
    top_prefixes 15 (aggregate repeated_tier) = [x]
    /\ entry_rows 1 x = Ok rows
    /\ List.length rows = 3%nat
    /\ distinct_tiers (entry_data x) = 1%nat.
Proof.
  do 2 eexists. split; [vm_compute; reflexivity |].
  split; [vm_compute; reflexivity |].
  split; vm_compute; reflexivity.
Qed.

(** ** Fixed-point text *)











(** ** Signs of measurements and totals *)

Lemma iter_pos_invariant {A : Type} (P : A -> Prop) (f : A -> A) :
  (forall a, P a -> P (f a)) -> forall p a, P a -> P (iter_pos f p a).
Proof.
  intros Hf. induction p as [p IH | p IH |]; intros a Ha; cbn; auto.
Qed.

Lemma shr_1_nonneg (mrs : shr_record) :
  0 <= shr_m mrs -> 0 <= shr_m (shr_1 mrs).
Proof.
  destruct mrs as [m r s]. cbn.
  destruct m as [| [p | p |] | [p | p |]]; cbn; lia.
Qed.

Lemma shr_fexp_nonneg (m e : Z) (l : location) :
  0 <= m -> 0 <= shr_m (fst (shr_fexp PyFloat.prec PyFloat.emax m e l)).
Proof.
  intros H. unfold shr_fexp, shr.
  assert (H0 : 0 <= shr_m (shr_record_of_loc m l))
    by (destruct l as [| []]; exact H).
  destruct (fexp PyFloat.prec PyFloat.emax (Zdigits2 m + e) - e); cbn;
    try exact H0.
  apply iter_pos_invariant; [exact shr_1_nonneg | exact H0].
Qed.

Lemma round_nearest_even_nonneg (m : Z) (l : location) :
  0 <= m -> 0 <= round_nearest_even m l.
Proof.
  intros H. unfold round_nearest_even.
  destruct l as [| []]; try destruct (Z.even m); lia.
Qed.

(** Rounding a non-negative mantissa gives a zero, a finite value or an
    infinity of the sign asked for, never nan. *)
Lemma binary_round_aux_sign (sx : bool) (mx ex : Z) (lx : location) :
  0 <= mx ->
  match binary_round_aux PyFloat.prec PyFloat.emax sx mx ex lx with
  | S754_zero s | S754_infinity s | S754_finite s _ _ => s = sx
  | S754_nan => False
  end.
Proof.
  intros H. unfold binary_round_aux.
  pose proof (shr_fexp_nonneg mx ex lx H) as H1.
  destruct (shr_fexp PyFloat.prec PyFloat.emax mx ex lx) as [mrs' e'].
  cbn [fst] in H1.
  pose proof (shr_fexp_nonneg _ e' loc_Exact
                (round_nearest_even_nonneg _ (loc_of_shr_record mrs') H1)) as H2.
  destruct (shr_fexp PyFloat.prec PyFloat.emax
              (round_nearest_even (shr_m mrs') (loc_of_shr_record mrs')) e'
              loc_Exact) as [mrs'' e''].
  cbn [fst] in H2.
  destruct (shr_m mrs'') as [| p | p]; [reflexivity | | lia].
  destruct (e'' <=? PyFloat.emax - PyFloat.prec); reflexivity.
Qed.

Lemma leb_zero_iff (f : float) :
  PyFloat.leb PyFloat.zero f = true <->
  match f with
  | S754_zero _ => True
  | S754_infinity s | S754_finite s _ _ => s = false
  | S754_nan => False
  end.
Proof.
  destruct f as [s | s | | s m e]; cbn; try destruct s; cbn;
    intuition discriminate.
Qed.

Lemma add_nonneg (x y : float) :
  PyFloat.leb PyFloat.zero x = true ->
  PyFloat.leb PyFloat.zero y = true ->
  PyFloat.leb PyFloat.zero (PyFloat.add x y) = true.
Proof.
  rewrite !leb_zero_iff.
  destruct x as [sx | sx | | sx mx ex], y as [sy | sy | | sy my ey];
    cbn; try tauto; try (intros -> ->; reflexivity);
    try (destruct sx, sy; tauto).
  intros -> ->. unfold PyFloat.add, SFadd. cbn [cond_Zopp].
  unfold binary_normalize.
  match goal with
  | |- context [Z.add (Zpos ?a) (Zpos ?b)] =>
      change (Z.add (Zpos a) (Zpos b)) with (Zpos (a + b))
  end.
  unfold binary_round.
  match goal with
  | |- context [shl_align ?a ?b ?c] => destruct (shl_align a b c) as [mz ez]
  end.
  pose proof (binary_round_aux_sign false (Zpos mz) ez loc_Exact ltac:(lia))
    as H.
  destruct (binary_round_aux PyFloat.prec PyFloat.emax false (Zpos mz) ez
              loc_Exact); try exact H; try exact I.
Qed.

Lemma to_int_nonneg (f : float) (n : Z) :
  PyFloat.leb PyFloat.zero f = true -> PyFloat.to_int f = Ok n -> 0 <= n.
Proof.
  destruct f as [s | s | | s m e]; cbn; intros H E; try discriminate;
    injection E as <-; [lia |].
  destruct s; [discriminate |]. cbn. apply trunc_mag_nonneg.
Qed.

Lemma int_or_zero_nonneg (val : string) :
  nonneg_field val -> 0 <= int_or_zero val.
Proof.
  unfold nonneg_field, int_or_zero.
  destruct (FloatText.parse val) as [f | ex]; cbn; [| lia].
  intros [_ H]. destruct (PyFloat.to_int f) as [n | ex] eqn:E; [| lia].
  exact (to_int_nonneg f n H E).
Qed.

Lemma float_or_zero_nonneg (val : string) :
  nonneg_field val -> PyFloat.leb PyFloat.zero (float_or_zero val) = true.
Proof.
  unfold nonneg_field, float_or_zero.
  destruct (FloatText.parse val) as [f | ex]; [tauto | intros _; reflexivity].
Qed.

Lemma normalize_row_nonneg (row : list string) (m : Measurement) :
  nonneg_row row -> normalize_row row = Some m -> nonneg_measurement m.
Proof.
  intros H E.
  destruct (Nat.ltb_spec (List.length row) 6) as [S | L].
  - rewrite normalize_row_short in E by exact S. discriminate.
  - rewrite normalize_row_long in E by exact L. injection E as <-.
    destruct (H L) as (H3 & H4 & H5). unfold nonneg_measurement.
    cbn [m_object_count m_total_size m_estimated_cost].
    auto using int_or_zero_nonneg, float_or_zero_nonneg.
Qed.

Lemma accumulate_nonneg (m : Measurement) (data : Acc.t) :
  nonneg_measurement m -> nonneg_totals data ->
  nonneg_totals (accumulate m data).
Proof.
  intros (Mo & Ms & Mc) (Do & Ds & Dc). unfold nonneg_totals, accumulate.
  cbn [Acc.total_objects Acc.total_size_bytes Acc.total_cost_usd].
  repeat split; try lia. apply add_nonneg; assumption.
Qed.

(** Induction over the aggregation loop, row by row. *)
Lemma aggregate_rows_ind (R : list string -> Prop) (P : Prefixes -> Prop) :
  (forall table row prefixes,
      R row -> P prefixes -> P (process_row table prefixes row)) ->
  forall results prefixes,
    Forall (fun tr => Forall R (snd tr)) results ->
    P prefixes -> P (fold_left process_table results prefixes).
Proof.
  intros Hstep results.
  induction results as [| [table rows] results IH]; intros prefixes Hr H0;
    cbn; [exact H0 |].
  inversion_clear Hr as [| ? ? Hrows Hrest].
  apply IH; [exact Hrest |]. unfold process_table. cbn [fst snd] in *.
  clear IH Hrest. revert prefixes H0.
  induction Hrows as [| row rows Hrow Hrows IHr]; intros prefixes H0; cbn;
    [exact H0 |].
  apply IHr, Hstep; assumption.
Qed.

(** C5 (amended). In an input where every row of at least 6 fields has
    count, size and cost fields that are each either rejected by [float]
    or read as a value [>= 0], every such row yields a measurement with
    count [>= 0], size [>= 0] and cost [>= 0.0] (a rejected field
    contributes zero), and every accumulator ends with non-negative
    totals.  Nothing is promised for a field that reads as a negative
    number: it is not clamped. *)
Theorem measurement_nonneg (results : list (string * list (list string))) :
  nonneg_input results ->
  Forall (fun tr =>
            Forall (fun row =>
                      (6 <= List.length row)%nat ->
                      exists m, normalize_row row = Some m
                                /\ nonneg_measurement m) (snd tr)) results
  /\ Forall (fun kd => nonneg_totals (snd kd)) (aggregate results).
Proof.
  intros H. split.
  - eapply Forall_impl; [| exact H]. intros [table rows] Hrows.
    eapply Forall_impl; [| exact Hrows]. intros row Hrow L.
    eexists. split; [apply normalize_row_long; exact L |].
    apply (normalize_row_nonneg row); [exact Hrow |].
    apply normalize_row_long; exact L.
  - unfold aggregate.
    apply (aggregate_rows_ind nonneg_row); [| exact H | constructor].
    intros table row prefixes Hrow HP. unfold process_row.
    destruct (normalize_row row) as [m |] eqn:E; [| exact HP].
    apply add_measurement_Forall; [| | exact HP].
    + repeat split; cbn; try lia.
    + intros data. apply accumulate_nonneg.
      exact (normalize_row_nonneg row m Hrow E).
Qed.

Lemma nonneg_input_mixed : nonneg_input mixed_input.
Proof.
  repeat constructor; intros L; cbn in L; try lia;
    repeat split; vm_compute; try reflexivity; exact I.
Qed.

Lemma measurement_nonneg_witness :
  Forall (fun tr =>
            Forall (fun row =>
                      (6 <= List.length row)%nat ->
                      exists m, normalize_row row = Some m
                                /\ nonneg_measurement m) (snd tr))
    mixed_input
  /\ Forall (fun kd => nonneg_totals (snd kd)) (aggregate mixed_input).
Proof. exact (measurement_nonneg mixed_input nonneg_input_mixed). Defined.

(** C5, as stated, fails: negative fields are kept negative. *)
Lemma measurement_negative_counterexample :
  exists m, normalize_row negative_row = Some m
    /\ m_object_count m = -3
    /\ m_total_size m = -1024
    /\ PyFloat.ltb (m_estimated_cost m) PyFloat.zero = true
    /\ exists data,
         aggregate [("t"%string, [negative_row])] = [(("t", "p")%string, data)]
         /\ Acc.total_size_bytes data = -1024
         /\ Acc.total_objects data = -3
         /\ PyFloat.ltb (Acc.total_cost_usd data) PyFloat.zero = true.
Proof.
  eexists. split; [vm_compute; reflexivity |].
  repeat split. eexists. split; [vm_compute; reflexivity |].
  repeat split.
Qed.

(** * Further properties *)

(** ** The aggregator as a fold over measurements *)

Lemma process_rows_measurements (table : string) (rows : list (list string))
  (prefixes : Prefixes) :
  fold_left (process_row table) rows prefixes
  = aggregate_onto prefixes (table_measurements table rows).
Proof.
  revert prefixes. induction rows as [| row rows IH]; intros prefixes;
    [reflexivity |].
  cbn [fold_left]. rewrite IH. unfold table_measurements.
  cbn [flat_map]. unfold aggregate_onto. rewrite fold_left_app.
  unfold process_row. destruct (normalize_row row); reflexivity.
Qed.

Lemma process_tables_measurements
  (results : list (string * list (list string))) (prefixes : Prefixes) :
  fold_left process_table results prefixes
  = aggregate_onto prefixes (measurements results).
Proof.
  revert prefixes. induction results as [| [table rows] results IH];
    intros prefixes; [reflexivity |].
  cbn [fold_left]. rewrite IH. unfold process_table. cbn [fst snd].
  rewrite process_rows_measurements. unfold measurements.
  cbn [flat_map fst snd]. unfold aggregate_onto. rewrite fold_left_app.
  reflexivity.
Qed.

Lemma aggregate_measurements (results : list (string * list (list string))) :
  aggregate results = aggregate_onto [] (measurements results).
Proof. apply process_tables_measurements. Qed.

Lemma add_measurement_keys (table : string) (m : Measurement)
  (prefixes : Prefixes) :
  map fst (add_measurement table m prefixes)
  = map fst prefixes
    ++ (if contains (table, m_prefix m) prefixes then []
        else [(table, m_prefix m)]).
Proof.
  destruct (contains (table, m_prefix m) prefixes) eqn:C.
  - rewrite add_measurement_known by exact C.
    rewrite update_keys, app_nil_r. reflexivity.
  - rewrite add_measurement_fresh by exact C. apply map_app.
Qed.

Lemma contains_false_get (key : Key) (prefixes : Prefixes) :
  contains key prefixes = false <-> get key prefixes = None.
Proof.
  pose proof (contains_get key prefixes) as H.
  destruct (contains key prefixes), (get key prefixes) as [d |];
    split; intros E; try reflexivity; try discriminate.
  - destruct (proj1 H eq_refl); discriminate.
  - assert (false = true) by (apply H; eauto). discriminate.
Qed.

Lemma add_measurement_get_other (table : string) (m : Measurement)
  (prefixes : Prefixes) (key : Key) :
  key <> (table, m_prefix m) ->
  get key (add_measurement table m prefixes) = get key prefixes.
Proof.
  intros N. destruct (contains (table, m_prefix m) prefixes) eqn:C.
  - rewrite add_measurement_known by exact C.
    apply get_update_other. congruence.
  - rewrite add_measurement_fresh by exact C.
    apply get_app_other. congruence.
Qed.

Lemma add_measurement_breakdown (table : string) (m : Measurement)
  (prefixes : Prefixes) (key : Key) :
  breakdown_under key (add_measurement table m prefixes)
  = breakdown_under key prefixes
    ++ (if key_eqb key (table, m_prefix m) then [tier_of m] else []).
Proof.
  unfold breakdown_under.
  destruct (key_eqb_spec key (table, m_prefix m)) as [-> | N].
  - rewrite add_measurement_get.
    destruct (get (table, m_prefix m) prefixes); reflexivity.
  - rewrite add_measurement_get_other by exact N.
    rewrite app_nil_r. reflexivity.
Qed.

Lemma aggregate_onto_breakdown (ms : list (string * Measurement))
  (prefixes : Prefixes) (key : Key) :
  breakdown_under key (aggregate_onto prefixes ms)
  = breakdown_under key prefixes
    ++ map (fun tm => tier_of (snd tm)) (under key ms).
Proof.
  revert prefixes. induction ms as [| [table m] ms IH]; intros prefixes.
  - cbn. rewrite app_nil_r. reflexivity.
  - unfold aggregate_onto in *. cbn [fold_left fst snd].
    rewrite IH, add_measurement_breakdown, <- app_assoc. f_equal.
    unfold under. cbn [filter].
    change (key_of (table, m)) with (table, m_prefix m).
    destruct (key_eqb key (table, m_prefix m)); reflexivity.
Qed.

Lemma aggregate_onto_contains (ms : list (string * Measurement))
  (prefixes : Prefixes) (key : Key) :
  contains key (aggregate_onto prefixes ms)
  = (contains key prefixes
     || existsb (fun tm => key_eqb key (key_of tm)) ms)%bool.
Proof.
  revert prefixes. induction ms as [| [table m] ms IH]; intros prefixes.
  - cbn. rewrite orb_false_r. reflexivity.
  - unfold aggregate_onto in *. cbn [fold_left fst snd existsb].
    rewrite IH. change (key_of (table, m)) with (table, m_prefix m).
    assert (E : contains key (add_measurement table m prefixes)
                = (contains key prefixes
                   || key_eqb key (table, m_prefix m))%bool).
    { destruct (contains key (add_measurement table m prefixes)) eqn:C1.
      - apply contains_In in C1. rewrite add_measurement_keys in C1.
        apply in_app_or in C1. destruct C1 as [I | I].
        + apply contains_In in I. rewrite I. reflexivity.
        + destruct (contains (table, m_prefix m) prefixes); [destruct I |].
          destruct I as [<- | []]. rewrite key_eqb_refl.
          symmetry. apply orb_true_r.
      - destruct (contains key prefixes) eqn:C0.
        + assert (In key (map fst (add_measurement table m prefixes))).
          { rewrite add_measurement_keys. apply in_or_app. left.
            apply contains_In. exact C0. }
          apply contains_In in H. congruence.
        + destruct (key_eqb_spec key (table, m_prefix m)) as [-> | N];
            [| reflexivity].
          assert (In (table, m_prefix m)
                    (map fst (add_measurement table m prefixes))).
          { rewrite add_measurement_keys, C0. apply in_or_app. right.
            left. reflexivity. }
          apply contains_In in H. congruence. }
    rewrite E, orb_assoc. reflexivity.
Qed.

Lemma under_nil_existsb (key : Key) (ms : list (string * Measurement)) :
  under key ms = [] <->
  existsb (fun tm => key_eqb key (key_of tm)) ms = false.
Proof.
  unfold under. induction ms as [| tm ms IH]; cbn; [tauto |].
  destruct (key_eqb key (key_of tm)); cbn; [| exact IH].
  split; discriminate.
Qed.

Lemma update_names (key : Key) (f : Acc.t -> Acc.t) (prefixes : Prefixes) :
  (forall data, Acc.table (f data) = Acc.table data
                /\ Acc.prefix (f data) = Acc.prefix data) ->
  Forall names_its_key prefixes ->
  Forall names_its_key (update key f prefixes).
Proof.
  intros Hf H. induction H as [| [k data] rest [Ht Hp] Hrest IH]; cbn;
    [constructor |].
  destruct (key_eqb key k); constructor; try assumption.
  - destruct (Hf data) as [Et Ep]. split; cbn in *; congruence.
  - split; assumption.
Qed.

Lemma aggregate_names (results : list (string * list (list string))) :
  Forall names_its_key (aggregate results).
Proof.
  apply aggregate_ind; [constructor |].
  intros table m prefixes H. unfold add_measurement.
  apply update_names; [intros data; split; reflexivity |].
  destruct (contains (table, m_prefix m) prefixes); [exact H |].
  apply Forall_app. split; [exact H |].
  constructor; [split; reflexivity | constructor].
Qed.

Lemma get_In (key : Key) (data : Acc.t) (prefixes : Prefixes) :
  get key prefixes = Some data -> In (key, data) prefixes.
Proof.
  induction prefixes as [| [k d] rest IH]; cbn; [discriminate |].
  destruct (key_eqb_spec key k) as [-> | N].
  - intros [= ->]. left. reflexivity.
  - intros E. right. exact (IH E).
Qed.

(** X2. Looking a key up after aggregation: it is absent exactly when no
    row of at least 6 fields falls under it; otherwise its accumulator
    names the key's table and prefix, and its breakdown lists the tiers
    of the rows under the key, one per row, in arrival order. *)
Theorem aggregate_lookup (results : list (string * list (list string)))
  (key : Key) :
  match get key (aggregate results) with
  | None => under key (measurements results) = []
  | Some data =>
      under key (measurements results) <> []
      /\ Acc.table data = fst key
      /\ Acc.prefix data = snd key
      /\ Acc.breakdown data
         = map (fun tm => tier_of (snd tm)) (under key (measurements results))
  end.
Proof.
  pose proof (aggregate_onto_breakdown (measurements results) [] key) as B.
  pose proof (aggregate_onto_contains (measurements results) [] key) as C.
  rewrite <- aggregate_measurements in B, C.
  unfold breakdown_under in B. cbn in B, C.
  destruct (get key (aggregate results)) as [data |] eqn:G.
  - assert (Hc : contains key (aggregate results) = true)
      by (apply contains_get; eauto).
    rewrite Hc in C.
    pose proof (proj1 (Forall_forall _ _) (aggregate_names results)
                  (key, data) (get_In _ _ _ G)) as [Ht Hp].
    repeat split; try assumption.
    intros E. apply under_nil_existsb in E. congruence.
  - apply contains_false_get in G. rewrite G in C.
    apply under_nil_existsb. congruence.
Qed.

Lemma add_measurement_contains (table : string) (m : Measurement)
  (prefixes : Prefixes) (key : Key) :
  contains key (add_measurement table m prefixes)
  = (contains key prefixes || key_eqb key (table, m_prefix m))%bool.
Proof.
  pose proof (aggregate_onto_contains [(table, m)] prefixes key) as H.
  cbn in H. rewrite orb_false_r in H. exact H.
Qed.

Lemma filter_filter {A : Type} (f g : A -> bool) (l : list A) :
  filter f (filter g l) = filter (fun x => (g x && f x)%bool) l.
Proof.
  induction l as [| x l IH]; cbn; [reflexivity |].
  destruct (g x); cbn; [destruct (f x) |]; congruence.
Qed.

Lemma aggregate_onto_keys (ms : list (string * Measurement))
  (prefixes : Prefixes) :
  map fst (aggregate_onto prefixes ms)
  = map fst prefixes
    ++ filter (fun k => negb (contains k prefixes))
         (first_seen (map key_of ms)).
Proof.
  revert prefixes. induction ms as [| [table m] ms IH]; intros prefixes.
  - cbn. rewrite app_nil_r. reflexivity.
  - unfold aggregate_onto in *. cbn [fold_left fst snd map first_seen].
    change (key_of (table, m)) with (table, m_prefix m).
    rewrite IH, add_measurement_keys, <- app_assoc. f_equal.
    assert (F : filter
                  (fun k => negb (contains k (add_measurement table m prefixes)))
                  (first_seen (map key_of ms))
                = filter (fun k => negb (contains k prefixes))
                    (filter (fun k' => negb (key_eqb k' (table, m_prefix m)))
                       (first_seen (map key_of ms)))).
    { rewrite filter_filter. apply filter_ext. intros k.
      rewrite add_measurement_contains.
      destruct (contains k prefixes), (key_eqb k (table, m_prefix m));
        reflexivity. }
    rewrite F. cbn [filter].
    destruct (contains (table, m_prefix m) prefixes); reflexivity.
Qed.

(** X1. The dict holds each (table, prefix) key once, and its keys stand
    in the order in which the rows of at least 6 fields first name
    them. *)
Theorem aggregate_key_order (results : list (string * list (list string))) :
  map fst (aggregate results)
    = first_seen (map key_of (measurements results))
  /\ NoDup (map fst (aggregate results)).
Proof.
  split; [| apply aggregate_keys_nodup].
  rewrite aggregate_measurements, aggregate_onto_keys. cbn.
  induction (first_seen (map key_of (measurements results))) as [| k l IH];
    cbn; congruence.
Qed.

(** ** The rows of the report *)

Lemma bytes_to_gb_raise (n : Z) (e : exn) :
  bytes_to_gb n = Raise e -> e = OverflowError /\ ~ fits_float n.
Proof.
  unfold bytes_to_gb, PyFloat.of_int, fits_float, PyFloat.of_int.
  destruct (PyFloat.round_Z n); cbn; intros E; try discriminate.
  injection E as <-. split; [reflexivity |]. intros [f F]. discriminate.
Qed.

Lemma bytes_to_gb_ok_fits (n : Z) (g : float) :
  bytes_to_gb n = Ok g -> fits_float n.
Proof.
  unfold bytes_to_gb, fits_float.
  destruct (PyFloat.of_int n) as [f | e]; [eauto | discriminate].
Qed.

Lemma breakdown_row_cells (rank : Z) (table_name prefix_name : string)
  (b : Tier.t) (r : Row) :
  breakdown_row rank table_name prefix_name b = Ok r ->
  List.length r = 11%nat /\ rank_cell r = CInt rank
  /\ fits_float (Tier.total_size_bytes b).
Proof.
  unfold breakdown_row. intros E.
  destruct (bytes_to_gb (Tier.total_size_bytes b)) as [g | e] eqn:G;
    [| discriminate].
  injection E as <-. repeat split. exact (bytes_to_gb_ok_fits _ _ G).
Qed.

Lemma breakdown_row_raise (rank : Z) (table_name prefix_name : string)
  (b : Tier.t) (e : exn) :
  breakdown_row rank table_name prefix_name b = Raise e ->
  e = OverflowError /\ ~ fits_float (Tier.total_size_bytes b).
Proof.
  unfold breakdown_row. intros E.
  destruct (bytes_to_gb (Tier.total_size_bytes b)) as [g | e'] eqn:G;
    [discriminate |].
  injection E as <-. exact (bytes_to_gb_raise _ _ G).
Qed.

Lemma breakdown_rows_ok (rank : Z) (table_name prefix_name : string)
  (bs : list Tier.t) (rows : list Row) :
  breakdown_rows rank table_name prefix_name bs = Ok rows ->
  List.length rows = List.length bs
  /\ Forall (fun r => List.length r = 11%nat /\ rank_cell r = CInt rank) rows
  /\ Forall (fun b => fits_float (Tier.total_size_bytes b)) bs.
Proof.
  revert rows. induction bs as [| b bs IH]; intros rows; cbn.
  - intros [= <-]. repeat split; constructor.
  - destruct (breakdown_row rank table_name prefix_name b) as [r | e] eqn:R;
      [| discriminate]. cbn [bind].
    destruct (breakdown_rows rank table_name prefix_name bs) as [rs | e];
      [| discriminate]. cbn [bind].
    intros [= <-]. destruct (IH rs eq_refl) as (L & F & S).
    destruct (breakdown_row_cells _ _ _ _ _ R) as (Lr & Cr & Sr).
    cbn. repeat split; [congruence | |]; constructor; auto.
Qed.

Lemma breakdown_rows_raise (rank : Z) (table_name prefix_name : string)
  (bs : list Tier.t) (e : exn) :
  breakdown_rows rank table_name prefix_name bs = Raise e ->
  e = OverflowError
  /\ ~ Forall (fun b => fits_float (Tier.total_size_bytes b)) bs.
Proof.
  induction bs as [| b bs IH]; cbn; [discriminate |].
  destruct (breakdown_row rank table_name prefix_name b) as [r | e'] eqn:R;
    cbn [bind].
  - destruct (breakdown_rows rank table_name prefix_name bs) as [rs | e''];
      cbn [bind]; [discriminate |].
    intros [= <-]. destruct (IH eq_refl) as [-> N].
    split; [reflexivity |]. intros F. inversion F. contradiction.
  - intros [= <-]. destruct (breakdown_row_raise _ _ _ _ _ R) as [-> N].
    split; [reflexivity |]. intros F. inversion F. contradiction.
Qed.

(** What one ranked entry renders to, or why it does not. *)
Lemma entry_rows_cases (rank : Z) (x : Entry) :
  match entry_rows rank x with
  | Ok rows =>
      entry_fits x
      /\ List.length rows = S (List.length (Acc.breakdown (entry_data x)))
      /\ Forall (fun r => List.length r = 11%nat
                          /\ rank_cell r = CInt rank) rows
  | Raise e => e = OverflowError /\ ~ entry_fits x
  end.
Proof.
  destruct x as [[[table_name prefix_name] cost] data].
  unfold entry_rows, entry_fits. cbn [entry_data snd].
  pose proof (sorted_desc_perm Tier.estimated_cost_usd (Acc.breakdown data))
    as P.
  destruct (bytes_to_gb (Acc.total_size_bytes data)) as [g | e] eqn:G;
    cbn [bind].
  - destruct (breakdown_rows rank table_name prefix_name
                (sorted_desc Tier.estimated_cost_usd (Acc.breakdown data)))
      as [rs | e] eqn:B; cbn [bind].
    + destruct (breakdown_rows_ok _ _ _ _ _ B) as (L & F & S).
      split; [split |].
      * exact (bytes_to_gb_ok_fits _ _ G).
      * eapply Permutation_Forall; [symmetry; exact P | exact S].
      * split.
        -- cbn. rewrite L. f_equal. symmetry. apply Permutation_length, P.
        -- constructor; [split; reflexivity | exact F].
    + destruct (breakdown_rows_raise _ _ _ _ _ B) as [-> N].
      split; [reflexivity |]. intros [_ F]. apply N.
      eapply Permutation_Forall; [exact P | exact F].
  - destruct (bytes_to_gb_raise _ _ G) as [-> N].
    split; [reflexivity |]. intros [F _]. contradiction.
Qed.

Lemma report_from_cases (rank : Z) (top : list Entry) :
  match report_from rank top with
  | Ok rows =>
      Forall entry_fits top
      /\ Forall (fun r => List.length r = 11%nat) rows
      /\ map rank_cell rows = ranks_from rank top
  | Raise e => e = OverflowError /\ ~ Forall entry_fits top
  end.
Proof.
  revert rank. induction top as [| x top IH]; intros rank;
    cbn [report_from ranks_from].
  - repeat split; constructor.
  - pose proof (entry_rows_cases rank x) as Hx.
    destruct (entry_rows rank x) as [rs | e]; cbn [bind].
    + destruct Hx as (Fx & Lx & Cx). specialize (IH (rank + 1)).
      destruct (report_from (rank + 1) top) as [rest | e]; cbn [bind].
      * destruct IH as (Ft & Lt & Rt). split; [constructor; assumption |].
        split.
        -- apply Forall_app. split; [| exact Lt].
           eapply Forall_impl; [| exact Cx]. intros r [H _]. exact H.
        -- rewrite map_app, Rt. f_equal.
           rewrite <- Lx. clear Lx.
           induction Cx as [| r rs' [_ Hr] _ IHr]; cbn; congruence.
      * destruct IH as [-> N]. split; [reflexivity |].
        intros F. inversion F. contradiction.
    + destruct Hx as [-> N]. split; [reflexivity |].
      intros F. inversion F. contradiction.
Qed.

(** X3. The report renders exactly when every size it converts fits a
    float: the total size of each ranked accumulator and the size of
    each of its breakdown entries.  Otherwise it raises, and the only
    exception it can raise is [OverflowError]. *)
Theorem report_renders_iff_sizes_fit (top : list Entry) :
  ((exists rows, report_rows top = Ok rows) <-> Forall entry_fits top)
  /\ forall e, report_rows top = Raise e -> e = OverflowError.
Proof.
  unfold report_rows. pose proof (report_from_cases 1 top) as H.
  destruct (report_from 1 top) as [rows | e'].
  - destruct H as (F & _). split; [split; eauto | discriminate].
  - destruct H as [-> N]. split.
    + split; [intros [rows E]; discriminate | contradiction].
    + intros e [= <-]. reflexivity.
Qed.

(** X4. Every row of a rendered report has as many cells as the header
    has columns, and the rank cells run 1, 2, 3, ... through the ranked
    list: the summary row and the breakdown rows of the i-th ranked
    accumulator all carry rank i. *)
Theorem report_rows_shape (top : list Entry) (rows : list Row) :
  report_rows top = Ok rows ->
  Forall (fun r => List.length r = List.length report_header) rows
  /\ map rank_cell rows = ranks_from 1 top.
Proof.
  unfold report_rows. intros E. pose proof (report_from_cases 1 top) as H.
  rewrite E in H. destruct H as (_ & L & R). split; assumption.
Qed.

(** ** Counting the rows *)

Lemma breakdown_total_cons (data : Acc.t) (accs : list Acc.t) :
  breakdown_total (data :: accs)
  = (List.length (Acc.breakdown data) + breakdown_total accs)%nat.
Proof. reflexivity. Qed.

Lemma breakdown_total_app (accs accs' : list Acc.t) :
  breakdown_total (accs ++ accs')
  = (breakdown_total accs + breakdown_total accs')%nat.
Proof. unfold breakdown_total. rewrite map_app. apply list_sum_app. Qed.

Lemma ranks_from_length (rank : Z) (top : list Entry) :
  List.length (ranks_from rank top)
  = (List.length top + breakdown_total (map entry_data top))%nat.
Proof.
  revert rank. induction top as [| x top IH]; intros rank; [reflexivity |].
  cbn [ranks_from map]. rewrite length_app, repeat_length, IH.
  rewrite breakdown_total_cons. cbn [List.length]. lia.
Qed.

Lemma breakdown_total_perm (l l' : list Acc.t) :
  Permutation l l' -> breakdown_total l = breakdown_total l'.
Proof.
  induction 1; rewrite ?breakdown_total_cons; lia.
Qed.

Lemma update_breakdown_total (key : Key) (m : Measurement)
  (prefixes : Prefixes) :
  contains key prefixes = true ->
  breakdown_total (map snd (update key (accumulate m) prefixes))
  = S (breakdown_total (map snd prefixes)).
Proof.
  induction prefixes as [| [k data] rest IH]; cbn [contains update];
    [discriminate |].
  destruct (key_eqb key k); cbn [map snd]; rewrite !breakdown_total_cons.
  - intros _. unfold accumulate. cbn [Acc.breakdown].
    rewrite length_app. cbn [List.length]. lia.
  - intros C. rewrite (IH C). lia.
Qed.

Lemma add_measurement_breakdown_total (table : string) (m : Measurement)
  (prefixes : Prefixes) :
  breakdown_total (map snd (add_measurement table m prefixes))
  = S (breakdown_total (map snd prefixes)).
Proof.
  destruct (contains (table, m_prefix m) prefixes) eqn:C.
  - rewrite add_measurement_known by exact C.
    apply update_breakdown_total, C.
  - rewrite add_measurement_fresh by exact C.
    rewrite map_app, breakdown_total_app. cbn [map snd].
    rewrite breakdown_total_cons. cbn. lia.
Qed.

Lemma aggregate_onto_breakdown_total (ms : list (string * Measurement))
  (prefixes : Prefixes) :
  breakdown_total (map snd (aggregate_onto prefixes ms))
  = (breakdown_total (map snd prefixes) + List.length ms)%nat.
Proof.
  revert prefixes. induction ms as [| [table m] ms IH]; intros prefixes.
  - cbn [aggregate_onto fold_left List.length]. lia.
  - unfold aggregate_onto in *. cbn [fold_left fst snd].
    rewrite IH, add_measurement_breakdown_total. cbn [List.length]. lia.
Qed.

Lemma all_prefixes_data (prefixes : Prefixes) :
  map entry_data (all_prefixes prefixes) = map snd prefixes.
Proof.
  unfold all_prefixes. rewrite map_map. apply map_ext.
  intros [[t p] data]. reflexivity.
Qed.

Lemma top_prefixes_all (N : Z) (prefixes : Prefixes) :
  Z.of_nat (List.length prefixes) <= N ->
  Permutation (all_prefixes prefixes) (top_prefixes N prefixes).
Proof.
  intros H. unfold top_prefixes, slice_to.
  destruct (Z.ltb_spec N 0); [lia |].
  rewrite firstn_all2; [apply sorted_desc_perm |].
  rewrite sorted_desc_length, all_prefixes_length. lia.
Qed.

(** X5. A rendered report has one row per ranked accumulator plus one
    per breakdown entry of those accumulators.  When TOP_N is at least
    the number of accumulators, that is the number of distinct
    (table, prefix) keys plus the number of input rows of at least 6
    fields: no such row is lost or counted twice. *)
Theorem report_row_total (N : Z)
  (results : list (string * list (list string))) (rows : list Row) :
  report N results = Ok rows ->
  List.length rows
  = (List.length (top_prefixes N (aggregate results))
     + breakdown_total
         (map entry_data (top_prefixes N (aggregate results))))%nat
  /\ (Z.of_nat (List.length (aggregate results)) <= N ->
      List.length rows
      = (List.length (first_seen (map key_of (measurements results)))
         + List.length (measurements results))%nat).
Proof.
  unfold report, report_rows. intros E.
  pose proof (report_from_cases 1 (top_prefixes N (aggregate results))) as H.
  rewrite E in H. destruct H as (_ & _ & R).
  assert (L : List.length rows
              = (List.length (top_prefixes N (aggregate results))
                 + breakdown_total
                     (map entry_data (top_prefixes N (aggregate results))))%nat).
  { rewrite <- ranks_from_length with (rank := 1), <- R. symmetry.
    apply length_map. }
  split; [exact L |]. intros HN.
  pose proof (top_prefixes_all N (aggregate results) HN) as P.
  rewrite L, <- (Permutation_length P), all_prefixes_length.
  rewrite <- (breakdown_total_perm _ _ (Permutation_map entry_data P)).
  rewrite all_prefixes_data.
  rewrite <- (length_map fst (aggregate results)).
  rewrite aggregate_measurements at 2.
  rewrite aggregate_onto_breakdown_total.
  rewrite aggregate_measurements, aggregate_onto_keys. cbn.
  f_equal. f_equal.
  induction (first_seen (map key_of (measurements results))) as [| k l IH];
    cbn; congruence.
Qed.

(** ** The order of floats *)

Ltac compare_cases :=
  repeat match goal with
    | |- context [Pos.compare_cont Eq ?a ?b] =>
        change (Pos.compare_cont Eq a b) with (Pos.compare a b)
    | H : context [Pos.compare_cont Eq ?a ?b] |- _ =>
        change (Pos.compare_cont Eq a b) with (Pos.compare a b) in H
    end;
  repeat match goal with
    | H : context [Z.compare ?a ?b] |- _ =>
        destruct (Z.compare_spec a b); try subst; cbn in H
    | H : context [Pos.compare ?a ?b] |- _ =>
        destruct (Pos.compare_spec a b); try subst; cbn in H
    end;
  try discriminate;
  repeat match goal with
    | |- context [Z.compare ?a ?b] =>
        destruct (Z.compare_spec a b); try subst; cbn
    | |- context [Pos.compare ?a ?b] =>
        destruct (Pos.compare_spec a b); try subst; cbn
    end;
  try reflexivity; try discriminate; try lia.

Lemma leb_trans (x y z : float) :
  PyFloat.leb x y = true -> PyFloat.leb y z = true ->
  PyFloat.leb x z = true.
Proof.
  unfold PyFloat.leb, SFleb.
  destruct x as [sx | sx | | sx mx ex], y as [sy | sy | | sy my ey],
    z as [sz | sz | | sz mz ez]; cbn;
    try discriminate; try reflexivity;
    try (destruct sx; cbn; try discriminate; try reflexivity);
    try (destruct sy; cbn; try discriminate; try reflexivity);
    try (destruct sz; cbn; try discriminate; try reflexivity);
    intros H1 H2; compare_cases.
Qed.

Lemma geb_trans (x y z : float) :
  PyFloat.geb x y = true -> PyFloat.geb y z = true ->
  PyFloat.geb x z = true.
Proof. unfold PyFloat.geb. intros H1 H2. exact (leb_trans z y x H2 H1). Qed.

Lemma geb_not_ltb (x y : float) :
  PyFloat.geb x y = true -> PyFloat.ltb x y = false.
Proof.
  unfold PyFloat.geb, PyFloat.leb, PyFloat.ltb, SFleb, SFltb.
  rewrite (SFcompare_antisym x y).
  destruct (SFcompare x y) as [[ | | ] |]; cbn; congruence.
Qed.

Section Ranked.
Context {A : Type} (key : A -> float).

(** In a descending list the head is [>=] everything after it. *)
Lemma descending_head (x : A) (l : list A) :
  descending key (x :: l) ->
  Forall (fun y => PyFloat.geb (key x) (key y) = true) l.
Proof.
  revert x. induction l as [| y l IH]; intros x D; [constructor |].
  inversion_clear D as [| | ? ? ? G D'].
  constructor; [exact G |].
  eapply Forall_impl; [| exact (IH y D')].
  intros z Hz. exact (geb_trans _ _ _ G Hz).
Qed.

Lemma descending_tail (x : A) (l : list A) :
  descending key (x :: l) -> descending key l.
Proof. intros D. inversion D; [constructor | assumption]. Qed.

Lemma descending_split (l1 l2 : list A) :
  descending key (l1 ++ l2) ->
  forall x y, In x l1 -> In y l2 -> PyFloat.geb (key x) (key y) = true.
Proof.
  induction l1 as [| z l1 IH]; intros D x y Ix Iy; [destruct Ix |].
  cbn in D. destruct Ix as [-> | Ix].
  - pose proof (descending_head _ _ D) as F.
    rewrite Forall_forall in F. apply F, in_or_app. right. exact Iy.
  - exact (IH (descending_tail _ _ D) x y Ix Iy).
Qed.

Lemma insert_desc_before (x y z : A) (l : list A) :
  before x y l -> before x y (insert_desc key z l).
Proof.
  induction 1 as [l Iy | w l B IH]; cbn.
  - destruct (PyFloat.ltb (key x) (key z)).
    + apply before_later, before_here, Iy.
    + apply before_here.
      apply (Permutation_in _ (insert_desc_perm key z l)). right. exact Iy.
  - destruct (PyFloat.ltb (key w) (key z)).
    + apply before_later, before_later, B.
    + apply before_later, IH.
Qed.

Lemma insert_desc_In (z : A) (l : list A) (x : A) :
  In x l -> In x (insert_desc key z l).
Proof.
  intros I. apply (Permutation_in _ (insert_desc_perm key z l)).
  right. exact I.
Qed.

Lemma insert_desc_self (z : A) (l : list A) : In z (insert_desc key z l).
Proof.
  apply (Permutation_in _ (insert_desc_perm key z l)). left. reflexivity.
Qed.

(** Inserted into a descending list that holds [x], a [y] that is not
    greater than [x] lands behind it. *)
Lemma insert_desc_behind (x y : A) (l : list A) :
  descending key l -> In x l ->
  PyFloat.geb (key x) (key y) = true ->
  before x y (insert_desc key y l).
Proof.
  intros D Ix G. induction l as [| w l IH]; [destruct Ix |].
  cbn [insert_desc].
  assert (Gw : PyFloat.geb (key w) (key y) = true).
  { destruct Ix as [-> | Ix]; [exact G |].
    pose proof (descending_head _ _ D) as F. rewrite Forall_forall in F.
    exact (geb_trans _ _ _ (F x Ix) G). }
  rewrite (geb_not_ltb _ _ Gw).
  destruct Ix as [-> | Ix].
  - apply before_here, insert_desc_self.
  - apply before_later, IH; [exact (descending_tail _ _ D) | exact Ix].
Qed.

Lemma fold_insert_before (x y : A) (l acc : list A) :
  before x y acc ->
  before x y (fold_left (fun acc z => insert_desc key z acc) l acc).
Proof.
  revert acc. induction l as [| z l IH]; intros acc B; [exact B |].
  cbn. apply IH, insert_desc_before, B.
Qed.

Lemma no_nan_insert (z : A) (l : list A) :
  PyFloat.is_nan (key z) = false -> no_nan key l ->
  no_nan key (insert_desc key z l).
Proof.
  intros Nz Nl. unfold no_nan. rewrite <- (insert_desc_perm key z l).
  constructor; assumption.
Qed.

Lemma fold_insert_behind (x y : A) (l acc : list A) :
  no_nan key l -> no_nan key acc -> descending key acc ->
  In x acc -> In y l ->
  PyFloat.geb (key x) (key y) = true ->
  before x y (fold_left (fun acc z => insert_desc key z acc) l acc).
Proof.
  intros Nl Na D Ix Iy G. revert acc Na D Ix.
  induction l as [| z l IH]; intros acc Na D Ix; [destruct Iy |].
  inversion_clear Nl as [| ? ? Nz Nl'].
  cbn [fold_left]. destruct Iy as [-> | Iy].
  - apply fold_insert_before, insert_desc_behind; assumption.
  - apply IH; try assumption.
    + apply no_nan_insert; assumption.
    + apply insert_desc_descending; assumption.
    + apply insert_desc_In, Ix.
Qed.

Lemma sorted_desc_stable (x y : A) (l : list A) :
  no_nan key l -> before x y l ->
  PyFloat.geb (key x) (key y) = true ->
  before x y (sorted_desc key l).
Proof.
  intros Nl B G. unfold sorted_desc.
  assert (H : forall acc, no_nan key acc -> descending key acc ->
                before x y
                  (fold_left (fun acc z => insert_desc key z acc) l acc)).
  { induction B as [l Iy | z l B IH]; intros acc Na D;
      inversion_clear Nl as [| ? ? Nz Nl']; cbn [fold_left].
    - apply fold_insert_behind; try assumption.
      + apply no_nan_insert; assumption.
      + apply insert_desc_descending; assumption.
      + apply insert_desc_self.
    - apply IH; try assumption.
      + apply no_nan_insert; assumption.
      + apply insert_desc_descending; assumption. }
  apply H; constructor.
Qed.

End Ranked.

Lemma all_prefixes_no_nan (prefixes : Prefixes) :
  totals_not_nan prefixes -> no_nan entry_cost (all_prefixes prefixes).
Proof.
  intros H. unfold no_nan, all_prefixes. rewrite Forall_map.
  eapply Forall_impl; [| exact H]. intros [k data] E. exact E.
Qed.

Lemma slice_to_firstn {A : Type} (n : Z) (l : list A) :
  exists k, slice_to n l = firstn k l.
Proof. unfold slice_to. destruct (n <? 0); eauto. Qed.

(** X6. When no total is nan, the ranked list holds the most expensive
    accumulators: whatever TOP_N is, the accumulators left out (if any)
    each cost no more than every accumulator ranked, and ranked and left
    out together are the accumulators of the dict, each once. *)
Theorem top_n_most_expensive (N : Z) (prefixes : Prefixes) :
  totals_not_nan prefixes ->
  exists rest,
    Permutation (all_prefixes prefixes) (top_prefixes N prefixes ++ rest)
    /\ forall x y,
         In x (top_prefixes N prefixes) -> In y rest ->
         PyFloat.geb (Acc.total_cost_usd (entry_data x))
                     (Acc.total_cost_usd (entry_data y)) = true.
Proof.
  intros Hn. unfold top_prefixes.
  set (ranking := sorted_desc entry_cost (all_prefixes prefixes)).
  destruct (slice_to_firstn N ranking) as [k ->].
  exists (skipn k ranking).
  assert (P : Permutation (all_prefixes prefixes) ranking)
    by apply sorted_desc_perm.
  rewrite firstn_skipn. split; [exact P |].
  intros x y Ix Iy.
  assert (D : descending entry_cost (firstn k ranking ++ skipn k ranking)).
  { rewrite firstn_skipn.
    apply sorted_desc_descending, all_prefixes_no_nan, Hn. }
  pose proof (descending_split entry_cost _ _ D x y Ix Iy) as G.
  assert (Hx : In x (all_prefixes prefixes)).
  { apply (Permutation_in _ (Permutation_sym P)).
    rewrite <- (firstn_skipn k ranking). apply in_or_app. left. exact Ix. }
  assert (Hy : In y (all_prefixes prefixes)).
  { apply (Permutation_in _ (Permutation_sym P)).
    rewrite <- (firstn_skipn k ranking). apply in_or_app. right. exact Iy. }
  destruct (all_prefixes_cost prefixes x Hx) as [<- _].
  destruct (all_prefixes_cost prefixes y Hy) as [<- _].
  exact G.
Qed.

(** X7. Ties keep the order of the dict: when no total is nan, an
    accumulator whose key was seen before another's, and whose total
    cost is not smaller, is ranked before it. *)
Theorem ranking_keeps_first_seen (prefixes : Prefixes) (x y : Entry) :
  totals_not_nan prefixes ->
  before x y (all_prefixes prefixes) ->
  PyFloat.geb (entry_cost x) (entry_cost y) = true ->
  before x y (sorted_desc entry_cost (all_prefixes prefixes)).
Proof.
  intros Hn B G.
  apply sorted_desc_stable; [apply all_prefixes_no_nan, Hn | exact B | exact G].
Qed.

(** ** Edge cases of the slice and of the input *)

(** X8. A negative TOP_N does not empty the ranking: the slice [:N]
    cuts the last |N| entries, so max(0, count + N) accumulators are
    ranked. *)
Theorem negative_top_n_cuts_tail (N : Z) (prefixes : Prefixes) :
  N < 0 ->
  Z.of_nat (List.length (top_prefixes N prefixes))
  = Z.max 0 (Z.of_nat (List.length prefixes) + N).
Proof.
  intros H. rewrite top_prefixes_length.
  destruct (Z.ltb_spec N 0); [reflexivity | lia].
Qed.

Lemma short_rows_no_measurements
  (results : list (string * list (list string))) :
  Forall (fun tr => Forall (fun row => (List.length row < 6)%nat) (snd tr))
    results ->
  measurements results = [].
Proof.
  induction 1 as [| [table rows] results Hrows _ IH]; [reflexivity |].
  unfold measurements in *. cbn [flat_map fst snd]. rewrite IH, app_nil_r.
  cbn in Hrows. induction Hrows as [| row rows Hrow _ IHr]; [reflexivity |].
  unfold table_measurements in *. cbn [flat_map].
  rewrite (normalize_row_short row Hrow). exact IHr.
Qed.

(** X9. An input without a single row of at least 6 fields (no tables,
    empty tables, or short rows only) gives no accumulator, and for
    every TOP_N an empty report. *)
Theorem empty_input_empty_report (N : Z)
  (results : list (string * list (list string))) :
  Forall (fun tr => Forall (fun row => (List.length row < 6)%nat) (snd tr))
    results ->
  aggregate results = [] /\ report N results = Ok [].
Proof.
  intros H.
  assert (A : aggregate results = []).
  { rewrite aggregate_measurements, (short_rows_no_measurements results H).
    reflexivity. }
  split; [exact A |]. unfold report. rewrite A.
  unfold top_prefixes, slice_to. cbn. destruct (N <? 0); cbn;
    rewrite ?firstn_nil; reflexivity.
Qed.

(** ** The summary email *)

Lemma summary_entry_cases (i : Z) (x : Entry) :
  match summary_entry i x with
  | Ok _ => fits_float (Acc.total_size_bytes (entry_data x))
  | Raise e =>
      e = OverflowError
      /\ ~ fits_float (Acc.total_size_bytes (entry_data x))
  end.
Proof.
  destruct x as [[[table_name prefix_name] cost] data].
  unfold summary_entry. cbn [entry_data snd].
  destruct (bytes_to_gb (Acc.total_size_bytes data)) as [g | e] eqn:G;
    cbn [bind].
  - exact (bytes_to_gb_ok_fits _ _ G).
  - exact (bytes_to_gb_raise _ _ G).
Qed.

Lemma summary_from_cases (i : Z) (top : list Entry) (email : string * string) :
  match summary_from i top email with
  | Ok _ =>
      Forall (fun x => fits_float (Acc.total_size_bytes (entry_data x))) top
  | Raise e =>
      e = OverflowError
      /\ ~ Forall (fun x => fits_float (Acc.total_size_bytes (entry_data x)))
           top
  end.
Proof.
  revert i email. induction top as [| x top IH]; intros i email;
    cbn [summary_from]; [constructor |].
  pose proof (summary_entry_cases i x) as Hx.
  destruct (summary_entry i x) as [e | ex]; cbn [bind].
  - specialize (IH (i + 1)
                  ((fst email ++ fst e)%string, (snd email ++ snd e)%string)).
    destruct (summary_from (i + 1) top _) as [r | ex].
    + constructor; assumption.
    + destruct IH as [-> N]. split; [reflexivity |].
      intros F. inversion F. contradiction.
  - destruct Hx as [-> N]. split; [reflexivity |].
    intros F. inversion F. contradiction.
Qed.

(** X10. The summary email is composed exactly when the total size of
    every ranked accumulator fits a float, and fails with
    [OverflowError] otherwise.  So whenever the report of step 4
    rendered, the summary of step 6 is composed too. *)
Theorem summary_follows_report (cfg : Config) (dt_value : string)
  (top : list Entry) :
  ((exists email, summary cfg dt_value top = Ok email) <->
   Forall (fun x => fits_float (Acc.total_size_bytes (entry_data x))) top)
  /\ (forall e, summary cfg dt_value top = Raise e -> e = OverflowError)
  /\ ((exists rows, report_rows top = Ok rows) ->
      exists email, summary cfg dt_value top = Ok email).
Proof.
  unfold summary.
  match goal with
  | |- context [summary_from 1 top ?email] =>
      pose proof (summary_from_cases 1 top email) as H;
      destruct (summary_from 1 top email) as [r | ex]
  end; cbn [bind].
  - split; [split; eauto |]. split; [discriminate | eauto].
  - destruct H as [-> N]. split.
    { split; [intros [email E]; discriminate | contradiction]. }
    split; [intros e [= <-]; reflexivity |].
    intros [rows E]. exfalso. apply N.
    pose proof (report_from_cases 1 top) as R. unfold report_rows in E.
    rewrite E in R. destruct R as (F & _).
    eapply Forall_impl; [| exact F]. intros x [Hx _]. exact Hx.
Qed.

(** ** Waiting for the queries *)

(** X11. The polling loop ends at the first final state the service
    reports (SUCCEEDED, FAILED or CANCELLED): every state polled before
    it is not final, and what is reported after it is never read. *)
Theorem wait_for_first_final (states : list string) (state : string) :
  wait_for states = Some state <->
  exists earlier later,
    states = earlier ++ state :: later
    /\ is_final state = true
    /\ Forall (fun s => is_final s = false) earlier.
Proof.
  split.
  - induction states as [| s states IH]; cbn; [discriminate |].
    destruct (is_final s) eqn:F.
    + intros [= ->]. exists [], states. repeat split; [exact F | constructor].
    + intros E. destruct (IH E) as (earlier & later & -> & Fs & Fe).
      exists (s :: earlier), later. repeat split; [exact Fs |].
      constructor; assumption.
  - intros (earlier & later & -> & Fs & Fe).
    induction Fe as [| s earlier Hs _ IH]; cbn.
    + rewrite Fs. reflexivity.
    + rewrite Hs. exact IH.
Qed.

Lemma collect_from_usable (runs : list QueryRun) (prefixes : Prefixes) :
  Forall finishes runs ->
  collect_from prefixes runs
  = Some (fold_left process_table (flat_map usable runs) prefixes).
Proof.
  intros H. revert prefixes.
  induction H as [| run runs [state Hs] _ IH]; intros prefixes;
    [reflexivity |].
  cbn [collect_from flat_map]. rewrite fold_left_app.
  unfold collect_table, usable. rewrite Hs.
  destruct (String.eqb state "SUCCEEDED"); cbn [negb].
  - destruct (run_result run) as [| rows]; rewrite IH; reflexivity.
  - destruct (run_result run); rewrite IH; reflexivity.
Qed.

(** X12. When every query reaches a final state, step 2 aggregates
    exactly the tables whose query ended in SUCCEEDED and whose result
    object could be read, each without its header row; a table whose
    query FAILED or was CANCELLED, or whose result could not be read,
    is skipped and the others are still aggregated.  If some query
    never reaches a final state, step 2 never completes. *)
Theorem collect_skips_failures (runs : list QueryRun) :
  (Forall finishes runs ->
   collect runs = Some (aggregate (flat_map usable runs)))
  /\ (Exists (fun run => wait_for (run_states run) = None) runs ->
      collect runs = None).
Proof.
  split.
  - intros H. unfold collect, aggregate. apply collect_from_usable, H.
  - intros E. unfold collect. generalize (@nil (Key * Acc.t)).
    induction E as [run runs Hn | run runs _ IH]; intros prefixes;
      cbn [collect_from].
    + unfold collect_table. rewrite Hn. reflexivity.
    + destruct (collect_table prefixes run); [apply IH | reflexivity].
Qed.

(** ** Totals per key *)

(** X13. The totals stored under a key are the sums over the rows of at
    least 6 fields that fall under it: their sizes and their object
    counts added up, and their costs added left to right from 0.0, in
    arrival order.  Rows under other keys contribute nothing. *)
Theorem totals_per_key (results : list (string * list (list string)))
  (key : Key) (data : Acc.t) :
  get key (aggregate results) = Some data ->
  let rows := under key (measurements results) in
  Acc.total_size_bytes data
    = int_sum (map (fun tm => m_total_size (snd tm)) rows)
  /\ Acc.total_objects data
     = int_sum (map (fun tm => m_object_count (snd tm)) rows)
  /\ Acc.total_cost_usd data
     = float_sum (map (fun tm => m_estimated_cost (snd tm)) rows).
Proof.
  intros G rows.
  pose proof (proj1 (Forall_forall _ _) (aggregate_sums results)
                (key, data) (get_In _ _ _ G)) as (Hs & Ho & Hc).
  pose proof (aggregate_onto_breakdown (measurements results) [] key) as B.
  rewrite <- aggregate_measurements in B.
  unfold breakdown_under in B. rewrite G in B. cbn in B, Hs, Ho, Hc.
  unfold breakdown_sizes, breakdown_counts, breakdown_costs in *.
  rewrite B in Hs, Ho, Hc. rewrite map_map in Hs, Ho, Hc.
  repeat split; assumption.
Qed.

(** ** Fields beyond the sixth *)

Lemma field_firstn (row : list string) (i n : nat) :
  (i < n)%nat -> field (firstn n row) i = field row i.
Proof.
  unfold field. revert i n. induction row as [| f row IH]; intros i n H.
  - rewrite firstn_nil. reflexivity.
  - destruct n as [| n]; [lia |]. destruct i as [| i]; cbn; [reflexivity |].
    apply IH. lia.
Qed.

(** X14. Only the first six fields of a row are read: a row with extra
    fields is aggregated exactly as its first six fields alone. *)
Theorem extra_fields_ignored (table : string) (prefixes : Prefixes)
  (row : list string) :
  (6 <= List.length row)%nat ->
  normalize_row row = normalize_row (firstn 6 row)
  /\ process_row table prefixes row
     = process_row table prefixes (firstn 6 row).
Proof.
  intros H.
  assert (E : normalize_row row = normalize_row (firstn 6 row)).
  { rewrite (normalize_row_long row H).
    rewrite (normalize_row_long (firstn 6 row))
      by (rewrite length_firstn; lia).
    rewrite !field_firstn by lia. reflexivity. }
  split; [exact E |]. unfold process_row. rewrite E. reflexivity.
Qed.

(** ** The further properties at sample inputs *)

Lemma report_rows_shape_witness :
  exists rows,
    report_rows (top_prefixes 15 (aggregate mixed_input)) = Ok rows
    /\ Forall (fun r => List.length r = List.length report_header) rows
    /\ map rank_cell rows
       = ranks_from 1 (top_prefixes 15 (aggregate mixed_input)).
Proof.
  eexists. split; [vm_compute; reflexivity |].
  apply (report_rows_shape (top_prefixes 15 (aggregate mixed_input))).
  vm_compute. reflexivity.
Defined.

Lemma report_row_total_witness :
  exists rows,
    report 15 tied_prefixes = Ok rows
    /\ List.length rows = 6%nat
    /\ List.length (first_seen (map key_of (measurements tied_prefixes)))
       = 3%nat
    /\ List.length (measurements tied_prefixes) = 3%nat.
Proof.
  eexists. split; [vm_compute; reflexivity |].
  split; [| split; vm_compute; reflexivity].
  match goal with
  | |- List.length ?rows = _ =>
      destruct (report_row_total 15 tied_prefixes rows) as [_ H];
        [vm_compute; reflexivity |]
  end.
  rewrite H; vm_compute; [reflexivity | discriminate].
Defined.

Lemma top_n_most_expensive_witness :
  totals_not_nan (aggregate tied_prefixes)
  /\ exists rest,
       Permutation (all_prefixes (aggregate tied_prefixes))
         (top_prefixes 1 (aggregate tied_prefixes) ++ rest)
       /\ forall x y,
            In x (top_prefixes 1 (aggregate tied_prefixes)) -> In y rest ->
            PyFloat.geb (Acc.total_cost_usd (entry_data x))
                        (Acc.total_cost_usd (entry_data y)) = true.
Proof.
  assert (H : totals_not_nan (aggregate tied_prefixes))
    by (vm_compute; repeat constructor).
  split; [exact H |].
  exact (top_n_most_expensive 1 (aggregate tied_prefixes) H).
Defined.

Lemma ranking_keeps_first_seen_witness :
  exists c a b,
    all_prefixes (aggregate tied_prefixes) = [a; c; b]
    /\ sorted_desc entry_cost (all_prefixes (aggregate tied_prefixes))
       = [c; a; b]
    /\ before a b (sorted_desc entry_cost (all_prefixes (aggregate tied_prefixes))).
Proof.
  do 3 eexists. split; [vm_compute; reflexivity |].
  split; [vm_compute; reflexivity |].
  apply ranking_keeps_first_seen.
  - vm_compute. repeat constructor.
  - vm_compute. apply before_here. right. left. reflexivity.
  - vm_compute. reflexivity.
Defined.

Lemma negative_top_n_cuts_tail_witness :
  Z.of_nat (List.length (top_prefixes (-1) (aggregate tied_prefixes)))
  = Z.max 0 (Z.of_nat (List.length (aggregate tied_prefixes)) + -1).
Proof. apply (negative_top_n_cuts_tail (-1) (aggregate tied_prefixes)). lia. Defined.

Lemma empty_input_empty_report_witness :
  aggregate short_only = [] /\ report 15 short_only = Ok [].
Proof.
  apply (empty_input_empty_report 15 short_only).
  repeat constructor; cbn; lia.
Defined.

Lemma totals_per_key_witness :
  exists data,
    get ("t", "logs")%string (aggregate repeated_tier) = Some data
    /\ Acc.total_size_bytes data = 1536
    /\ Acc.total_objects data = 15.
Proof.
  eexists. split; [vm_compute; reflexivity |].
  match goal with
  | |- Acc.total_size_bytes ?d = _ /\ _ =>
      destruct (totals_per_key repeated_tier ("t", "logs")%string d)
        as (Hs & Ho & _); [vm_compute; reflexivity |]
  end.
  split; [rewrite Hs | rewrite Ho]; vm_compute; reflexivity.
Defined.

Lemma extra_fields_ignored_witness :
  normalize_row (row_standard ++ ["extra"; "more"]%string)
    = normalize_row row_standard
  /\ process_row "t" [] (row_standard ++ ["extra"; "more"]%string)
     = process_row "t" [] row_standard.
Proof.
  apply (extra_fields_ignored "t" [] (row_standard ++ ["extra"; "more"]%string)).
  cbn. lia.
Defined.

(** ** A row whose numbers are all garbage *)





